(** * progress_reporter: a shallow embedding of the Go package

    The package has two components:
    - [ProgressReporter] (reporter.go): wall-clock statistics of named stages;
    - [ProgressBar] (progress_bar.go): a mutex-protected pair of counters that
      prints a one-line status after every mutation.

    Go's [int], [int64] and [time.Duration] are modelled as [Z] with the
    two's-complement wrap-around written out ([wrap]); [float64] is modelled by
    the IEEE-754 binary64 instance of [SpecFloat]; strings are [string] (byte
    sequences, as in Go); the map [ks] is a [gmap string keyStage]; the clock
    and the console are explicit: every method takes the reading [now] that
    its call to [time.Now] returns, and the console is the list of the texts
    written so far. *)

From Stdlib Require Import ZArith Lia Bool List Ascii String SpecFloat.
From stdpp Require Import base option list strings gmap fin_maps.

Local Open Scope Z_scope.

(** ** Go integers *)

Module GoInt.

(** The width of [int] on the 64-bit platforms Go targets by default, and
    of [int64] and [time.Duration] everywhere. *)
Definition width : Z := 64.

Definition MaxInt : Z := 2 ^ (width - 1) - 1.
Definition MinInt : Z := - 2 ^ (width - 1).

(** [in_range z]: [z] is a value of type [int]. *)
Definition in_range (z : Z) : Prop := MinInt <= z <= MaxInt.

(** Signed arithmetic wraps around on overflow (Go spec, "Integer
    overflow"). *)
Definition wrap (z : Z) : Z := (z + 2 ^ (width - 1)) mod 2 ^ width - 2 ^ (width - 1).

(** The conversion [uint64(x)]. *)
Definition to_uint (z : Z) : Z := z mod 2 ^ width.

Definition add (x y : Z) : Z := wrap (x + y).
Definition sub (x y : Z) : Z := wrap (x - y).
Definition mul (x y : Z) : Z := wrap (x * y).
Definition neg (x : Z) : Z := wrap (- x).

(** [/] and [%] truncate towards zero; [MinInt / -1] wraps. *)
Definition quo (x y : Z) : Z := wrap (Z.quot x y).
Definition rem (x y : Z) : Z := Z.rem x y.

End GoInt.

(** ** Decimal output, as [fmt] and [time] produce it *)

Module GoFmt.

Definition digit (d : Z) : ascii := ascii_of_nat (Z.to_nat (48 + d mod 10)).

(** The loop of [fmtInt]: the decimal digits of [v], most significant
    first, in front of [acc]; nothing for [v = 0]. *)
Fixpoint digits_loop (fuel : nat) (v : Z) (acc : string) : string :=
  match fuel with
  | O => acc
  | S fuel' =>
      if v <=? 0 then acc
      else digits_loop fuel' (v / 10) (String (digit v) acc)
  end.

(** [fuel_for v] bounds the number of decimal digits of [v]. *)
Definition fuel_for (v : Z) : nat := S (Z.to_nat (Z.log2 v)).

(** Decimal form of a natural number, ["0"] for zero. *)
Definition fmt_uint (v : Z) : string :=
  if v <=? 0 then "0"%string else digits_loop (fuel_for v) v EmptyString.

(** The verb [%d]. *)
Definition fmt_d (z : Z) : string :=
  if z <? 0 then String "-"%char (fmt_uint (- z)) else fmt_uint z.

(** [strings.Repeat s count], which panics on a negative count. *)
Fixpoint repeat_string (s : string) (n : nat) : string :=
  match n with
  | O => EmptyString
  | S n' => s +:+ repeat_string s n'
  end.

(** Left padding with spaces to a minimal width, as in [%3.0f]. *)
Definition fmt_width (w : nat) (s : string) : string :=
  repeat_string " " (w - String.length s)%nat +:+ s.

End GoFmt.

(** ** Panics and the state of a running program *)

Module GoRun.

(** The run-time panics the package can raise. A [float64] division by zero
    does not panic in Go (it yields an infinity or a NaN); the embedding
    reports it all the same, as [DivisionByZero], so that the absence of
    such a division is a property of the result. [Deadlock] is a
    [Lock] of a mutex that the caller itself holds. *)
Inductive panic : Type :=
| NilPointerDereference
| NegativeRepeatCount
| DivisionByZero
| Deadlock
| UnlockOfUnlockedMutex.

Inductive result (A : Type) : Type :=
| Ok (a : A)
| Panic (p : panic).
Arguments Ok {A} a.
Arguments Panic {A} p.

Definition rbind {A B : Type} (r : result A) (k : A -> result B) : result B :=
  match r with
  | Ok a => k a
  | Panic p => Panic p
  end.

(** The receiver of a method together with the standard output: the texts
    written so far, oldest first, one per call of [fmt.Print*]. *)
Record proc (T : Type) : Type := Proc { self : T; stdout : list string }.
Arguments Proc {T} self stdout.
Arguments self {T} p.
Arguments stdout {T} p.

(** A method body: it runs on a state, and returns or panics in a state. *)
Definition M (T A : Type) : Type := proc T -> result A * proc T.

Definition ret {T A : Type} (a : A) : M T A := fun w => (Ok a, w).

Definition bind {T A B : Type} (c : M T A) (k : A -> M T B) : M T B :=
  fun w =>
    match c w with
    | (Ok a, w') => k a w'
    | (Panic p, w') => (Panic p, w')
    end.

Definition get {T : Type} : M T T := fun w => (Ok (self w), w).

Definition modify {T : Type} (f : T -> T) : M T unit :=
  fun w => (Ok tt, Proc (f (self w)) (stdout w)).

Definition lift {T A : Type} (r : result A) : M T A := fun w => (r, w).

(** [defer cleanup; body]: [cleanup] runs when [body] returns or panics. *)
Definition defer {T A : Type} (cleanup : M T unit) (body : M T A) : M T A :=
  fun w =>
    let '(r, w1) := body w in
    match cleanup w1 with
    | (Ok _, w2) => (r, w2)
    | (Panic p, w2) => (Panic p, w2)
    end.

Definition newline : string := String (ascii_of_nat 10) EmptyString.

(** [fmt.Print(s)] and [fmt.Println(s)]. *)
Definition Print {T : Type} (s : string) : M T unit :=
  fun w => (Ok tt, Proc (self w) (stdout w ++ [s])).

Definition Println {T : Type} (s : string) : M T unit := Print (s +:+ newline).

End GoRun.

Declare Scope go_scope.
Delimit Scope go_scope with go.
Notation "'do' x <- c ; k" := (GoRun.bind c (fun x => k))
  (at level 10, x name, c at level 100, k at level 200) : go_scope.
Notation "'do?' x <- r ; k" := (GoRun.rbind r (fun x => k))
  (at level 10, x name, r at level 100, k at level 200) : go_scope.

(** ** Go's [float64] *)

Module GoFloat.

Definition prec : Z := 53.
Definition emax : Z := 1024.

(** IEEE-754 binary64 values with round-to-nearest-even operations. *)
Definition float64 : Type := spec_float.

Definition zero : float64 := S754_zero false.

(** The conversion [float64(n)] of an integer, correctly rounded. *)
Definition of_int (n : Z) : float64 := binary_normalize prec emax n 0 false.

Definition fadd (x y : float64) : float64 := SFadd prec emax x y.
Definition fmul (x y : float64) : float64 := SFmul prec emax x y.
Definition fquo (x y : float64) : float64 := SFdiv prec emax x y.
Definition flt (x y : float64) : bool := SFltb x y.

Definition is_zero (x : float64) : bool :=
  match x with
  | S754_zero _ => true
  | _ => false
  end.

(** The operator [/]: the quotient, with a zero divisor reported. *)
Definition fdiv (x y : float64) : GoRun.result float64 :=
  if is_zero y then GoRun.Panic GoRun.DivisionByZero else GoRun.Ok (fquo x y).

(** The integer part of a finite value's magnitude [m * 2^e]. *)
Definition trunc_mag (m : positive) (e : Z) : Z :=
  if 0 <=? e then Z.shiftl (Zpos m) e else Z.shiftr (Zpos m) (- e).

(** The conversion [int64(x)]: the fraction is discarded; for a value that
    does not fit (or is not a number) the result is left to the
    implementation by the Go spec, and is the smallest integer on amd64. *)
Definition to_int (x : float64) : Z :=
  match x with
  | S754_zero _ => 0
  | S754_finite s m e =>
      let v := trunc_mag m e in
      let v := if s then - v else v in
      if (GoInt.MinInt <=? v) && (v <=? GoInt.MaxInt) then v else GoInt.MinInt
  | _ => GoInt.MinInt
  end.

(** The magnitude [m * 2^e] times [10^digits], rounded to the nearest
    integer, halfway values to even: what [strconv] prints for the verb
    [%.<digits>f]. *)
Definition scaled_round (m : positive) (e : Z) (digits : nat) : Z :=
  let num := Zpos m * 10 ^ Z.of_nat digits in
  if 0 <=? e then Z.shiftl num e
  else
    let den := 2 ^ (- e) in
    let q := num / den in
    let r := num mod den in
    match 2 * r ?= den with
    | Lt => q
    | Gt => q + 1
    | Eq => if Z.even q then q else q + 1
    end.

(** The digits of [fmt_f]: integer part, and [digits] decimals if any. *)
Definition fixed (n : Z) (digits : nat) : string :=
  let p := 10 ^ Z.of_nat digits in
  let int_part := GoFmt.fmt_uint (n / p) in
  match digits with
  | O => int_part
  | _ =>
      let frac := GoFmt.fmt_uint (n mod p) in
      int_part +:+ "." +:+
        GoFmt.repeat_string "0" (digits - String.length frac)%nat +:+ frac
  end.

(** The verb [%.<digits>f] without width. *)
Definition fmt_f (digits : nat) (x : float64) : string :=
  match x with
  | S754_nan => "NaN"
  | S754_infinity s => if s then "-Inf" else "+Inf"
  | S754_zero s =>
      (if s then "-" else EmptyString) +:+ fixed 0 digits
  | S754_finite s m e =>
      (if s then "-" else EmptyString) +:+ fixed (scaled_round m e digits) digits
  end%string.



End GoFloat.

(** ** Go's [time] package *)

Module GoTime.

(** A [time.Duration] is an [int64] count of nanoseconds. *)
Definition Duration := Z.

Definition Nanosecond : Duration := 1.
Definition Microsecond : Duration := 1000 * Nanosecond.
Definition Millisecond : Duration := 1000 * Microsecond.
Definition Second : Duration := 1000 * Millisecond.

Definition minDuration : Duration := GoInt.MinInt.
Definition maxDuration : Duration := GoInt.MaxInt.

(** A [time.Time] is either the zero value of the type (year 1, no
    monotonic reading) or a value returned by [time.Now], which carries a
    reading of the monotonic clock in nanoseconds. *)
Inductive Time : Type :=
| TimeZero
| TimeAt (mono : Z).

(** [subMono]: the difference of two monotonic readings, saturated. *)
Definition subMono (t u : Z) : Duration :=
  let d := GoInt.sub t u in
  if (d <? 0) && (u <? t) then maxDuration
  else if (0 <? d) && (t <? u) then minDuration
  else d.

(** [t.Sub(u)]. Between two values of [time.Now] the monotonic readings are
    used; the distance from the zero time to any present-day reading of the
    wall clock exceeds the largest duration (about 292 years) and is
    saturated. *)
Definition Sub (t u : Time) : Duration :=
  match t, u with
  | TimeAt a, TimeAt b => subMono a b
  | TimeAt _, TimeZero => maxDuration
  | TimeZero, TimeAt _ => minDuration
  | TimeZero, TimeZero => 0
  end.

(** [time.Since(t)] is [time.Now().Sub(t)]. *)
Definition Since (now t : Time) : Duration := Sub now t.

Definition lessThanHalf (x y : Duration) : bool :=
  GoInt.to_uint (GoInt.to_uint x + GoInt.to_uint x) <? GoInt.to_uint y.

(** [d.Round(m)]: the multiple of [m] nearest to [d], halfway values away
    from zero, saturated. *)
Definition Round (d m : Duration) : Duration :=
  if m <=? 0 then d
  else
    let r := GoInt.rem d m in
    if d <? 0 then
      let r := GoInt.neg r in
      if lessThanHalf r m then GoInt.add d r
      else
        let d1 := GoInt.add (GoInt.sub d m) r in
        if d1 <? d then d1 else minDuration
    else
      if lessThanHalf r m then GoInt.sub d r
      else
        let d1 := GoInt.sub (GoInt.add d m) r in
        if d <? d1 then d1 else maxDuration.

(** [fmtFrac]: the fraction of [v / 10^prec] without trailing zeros (and
    without the point when it is zero) in front of [acc], and [v / 10^prec]. *)
Fixpoint fmtFrac_loop (prec : nat) (v : Z) (print : bool) (acc : string)
  : string * Z * bool :=
  match prec with
  | O => (acc, v, print)
  | S prec' =>
      let d := v mod 10 in
      let print := print || negb (d =? 0) in
      fmtFrac_loop prec' (v / 10) print
        (if print then String (GoFmt.digit d) acc else acc)
  end.

Definition fmtFrac (acc : string) (v : Z) (prec : nat) : string * Z :=
  let '(s, v', print) := fmtFrac_loop prec v false acc in
  (if print then String "."%char s else s, v').

Definition fmtInt (acc : string) (v : Z) : string :=
  GoFmt.fmt_uint v +:+ acc.

(** The two bytes of the micro sign in UTF-8. *)
Definition micro : string :=
  String (ascii_of_nat 194) (String (ascii_of_nat 181) EmptyString).

(** [d.String()], e.g. ["1h2m3s"], ["1.5s"], ["0s"]. *)
Definition Duration_String (d : Duration) : string :=
  let neg := d <? 0 in
  let u := if neg then GoInt.to_uint (- GoInt.to_uint d) else GoInt.to_uint d in
  let body :=
    if u <? Second then
      if u =? 0 then "0s"%string
      else
        let '(unit, prec) :=
          if u <? Microsecond then ("ns"%string, 0%nat)
          else if u <? Millisecond then (micro +:+ "s", 3%nat)
          else ("ms"%string, 6%nat) in
        let '(s, u) := fmtFrac unit u prec in
        fmtInt s u
    else
      let '(s, u) := fmtFrac "s" u 9 in
      let s := fmtInt s (u mod 60) in
      let u := u / 60 in
      if 0 <? u then
        let s := fmtInt (String "m"%char s) (u mod 60) in
        let u := u / 60 in
        if 0 <? u then fmtInt (String "h"%char s) u else s
      else s in
  if neg then String "-"%char body else body.

(** [d.Seconds()]. *)
Definition Seconds (d : Duration) : GoRun.result GoFloat.float64 :=
  let sec := GoInt.quo d Second in
  let nsec := GoInt.rem d Second in
  (do? q <- GoFloat.fdiv (GoFloat.of_int nsec) (GoFloat.of_int 1000000000);
   GoRun.Ok (GoFloat.fadd (GoFloat.of_int sec) q))%go.

End GoTime.

(** ** reporter.go: [keyStage] and [ProgressReporter] *)

Module KeyStage.

Record keyStage : Type := Build {
  name : string;
  totalDuration : GoTime.Duration;
  count : Z;
  maxDuration : GoTime.Duration;
  minDuration : GoTime.Duration;
  startTime : GoTime.Time;
  endTime : GoTime.Time
}.

Definition set_totalDuration (v : GoTime.Duration) (k : keyStage) : keyStage :=
  Build (name k) v (count k) (maxDuration k) (minDuration k) (startTime k) (endTime k).
Definition set_count (v : Z) (k : keyStage) : keyStage :=
  Build (name k) (totalDuration k) v (maxDuration k) (minDuration k) (startTime k) (endTime k).
Definition set_maxDuration (v : GoTime.Duration) (k : keyStage) : keyStage :=
  Build (name k) (totalDuration k) (count k) v (minDuration k) (startTime k) (endTime k).
Definition set_minDuration (v : GoTime.Duration) (k : keyStage) : keyStage :=
  Build (name k) (totalDuration k) (count k) (maxDuration k) v (startTime k) (endTime k).
Definition set_startTime (v : GoTime.Time) (k : keyStage) : keyStage :=
  Build (name k) (totalDuration k) (count k) (maxDuration k) (minDuration k) v (endTime k).
Definition set_endTime (v : GoTime.Time) (k : keyStage) : keyStage :=
  Build (name k) (totalDuration k) (count k) (maxDuration k) (minDuration k) (startTime k) v.

End KeyStage.

Module Reporter.

Import GoRun.
Export KeyStage.
Local Open Scope go_scope.

(** [ks] maps a name to a pointer to a [keyStage]; no two entries share a
    pointer, so the map holds the records themselves, and the [nil] that
    indexing yields for a missing name is the [None] of the lookup. *)
Record ProgressReporter : Type := Build {
  startTime : GoTime.Time;
  endTime : GoTime.Time;
  totalDuration : GoTime.Duration;
  ks : gmap string keyStage
}.

Definition set_startTime (v : GoTime.Time) (p : ProgressReporter) : ProgressReporter :=
  Build v (endTime p) (totalDuration p) (ks p).
Definition set_endTime (v : GoTime.Time) (p : ProgressReporter) : ProgressReporter :=
  Build (startTime p) v (totalDuration p) (ks p).
Definition set_totalDuration (v : GoTime.Duration) (p : ProgressReporter) : ProgressReporter :=
  Build (startTime p) (endTime p) v (ks p).
Definition set_ks (v : gmap string keyStage) (p : ProgressReporter) : ProgressReporter :=
  Build (startTime p) (endTime p) (totalDuration p) v.

Definition NewProgressReporter : ProgressReporter :=
  Build GoTime.TimeZero GoTime.TimeZero 0 ∅.

Definition StartRecord (now : GoTime.Time) : M ProgressReporter unit :=
  modify (set_startTime now).

Definition EndRecord (now : GoTime.Time) : M ProgressReporter unit :=
  do _ <- modify (set_endTime now);
  do p <- get;
  modify (set_totalDuration (GoTime.Sub (endTime p) (startTime p))).

(** Reading through the pointer [p.ks[name]]: a panic when it is [nil]. *)
Definition load (name : string) : M ProgressReporter keyStage :=
  do p <- get;
  match ks p !! name with
  | Some k => ret k
  | None => lift (Panic NilPointerDereference)
  end.

(** Writing a field through the pointer [p.ks[name]]. *)
Definition store (name : string) (f : keyStage -> keyStage) : M ProgressReporter unit :=
  do k <- load name;
  modify (fun p => set_ks (<[name := f k]> (ks p)) p).

Definition StartKeyStageRecord (name : string) (now : GoTime.Time)
  : M ProgressReporter unit :=
  do p <- get;
  do _ <- match ks p !! name with
          | Some _ => ret tt
          | None =>
              modify (set_ks (<[name :=
                KeyStage.Build name 0 0 0 (Z.shiftl 1 63 - 1)
                  GoTime.TimeZero GoTime.TimeZero]> (ks p)))
          end;
  store name (KeyStage.set_startTime now).

Definition EndKeyStageRecord (name : string) (now : GoTime.Time)
  : M ProgressReporter unit :=
  do _ <- store name (KeyStage.set_endTime now);
  do e <- load name;
  do b <- load name;
  let currentDuration := GoTime.Sub (KeyStage.endTime e) (KeyStage.startTime b) in
  do k <- load name;
  do _ <- store name
    (KeyStage.set_totalDuration (GoInt.add (KeyStage.totalDuration k) currentDuration));
  do k <- load name;
  do _ <- store name (KeyStage.set_count (GoInt.add (KeyStage.count k) 1));
  do k <- load name;
  do _ <- (if KeyStage.maxDuration k <? currentDuration
           then store name (KeyStage.set_maxDuration currentDuration)
           else ret tt);
  do k <- load name;
  if currentDuration <? KeyStage.minDuration k
  then store name (KeyStage.set_minDuration currentDuration)
  else ret tt.

Definition tab : string := String (ascii_of_nat 9) EmptyString.

(** ["Total duration: %d s\n"] *)
Definition report_header (p : ProgressReporter) : string :=
  "Total duration: " +:+ GoFmt.fmt_d (GoInt.quo (totalDuration p) GoTime.Second)
    +:+ " s" +:+ newline.

(** ["\t Key: %s, Count: %d, Total duration: %d s, Max duration: %d s,
    Min duration: %d s\n"] *)
Definition report_line (k : string) (v : keyStage) : string :=
  tab +:+ " Key: " +:+ k
    +:+ ", Count: " +:+ GoFmt.fmt_d (KeyStage.count v)
    +:+ ", Total duration: "
    +:+ GoFmt.fmt_d (GoInt.quo (KeyStage.totalDuration v) GoTime.Second)
    +:+ " s, Max duration: "
    +:+ GoFmt.fmt_d (GoInt.quo (KeyStage.maxDuration v) GoTime.Second)
    +:+ " s, Min duration: "
    +:+ GoFmt.fmt_d (GoInt.quo (KeyStage.minDuration v) GoTime.Second)
    +:+ " s" +:+ newline.

(** [for k, v := range entries { body }] *)
Fixpoint range {T : Type} (entries : list (string * keyStage))
    (body : string -> keyStage -> M T unit) : M T unit :=
  match entries with
  | [] => ret tt
  | (k, v) :: rest => do _ <- body k v; range rest body
  end.

(** The order in which [range] visits a map is not specified and changes
    from one run to the next: any arrangement of the entries is possible. *)
Definition iteration_order (m : gmap string keyStage)
    (entries : list (string * keyStage)) : Prop :=
  entries ≡ₚ map_to_list m.

(** [Report], for the order [entries] in which [range p.ks] yields the
    stages in this run. *)
Definition Report (entries : list (string * keyStage)) : M ProgressReporter unit :=
  do p <- get;
  do _ <- Print (report_header p);
  range entries (fun k v => Print (report_line k v)).

(** The record that [StartKeyStageRecord] creates for a new name. *)
Definition fresh (name : string) : keyStage :=
  KeyStage.Build name 0 0 0 GoInt.MaxInt GoTime.TimeZero GoTime.TimeZero.

(** The record of a stage after a sample [d]. *)
Definition sampled (d : GoTime.Duration) (now : GoTime.Time) (k : keyStage)
  : keyStage :=
  KeyStage.Build (KeyStage.name k)
    (GoInt.add (KeyStage.totalDuration k) d)
    (GoInt.add (KeyStage.count k) 1)
    (if KeyStage.maxDuration k <? d then d else KeyStage.maxDuration k)
    (if d <? KeyStage.minDuration k then d else KeyStage.minDuration k)
    (KeyStage.startTime k) now.

(** The statistics of a stage: total, count, maximum, minimum. *)
Definition stats (k : keyStage) : Z * Z * Z * Z :=
  (KeyStage.totalDuration k, KeyStage.count k, KeyStage.maxDuration k,
   KeyStage.minDuration k).

(** A call of one of the recording methods. *)
Inductive call : Type :=
| CallStartRecord (now : GoTime.Time)
| CallEndRecord (now : GoTime.Time)
| CallStartKeyStageRecord (name : string) (now : GoTime.Time)
| CallEndKeyStageRecord (name : string) (now : GoTime.Time).

Definition exec (c : call) : M ProgressReporter unit :=
  match c with
  | CallStartRecord now => StartRecord now
  | CallEndRecord now => EndRecord now
  | CallStartKeyStageRecord name now => StartKeyStageRecord name now
  | CallEndKeyStageRecord name now => EndKeyStageRecord name now
  end.

(** A sequence of calls; a panic ends it. *)
Fixpoint run (calls : list call) : M ProgressReporter unit :=
  match calls with
  | [] => ret tt
  | c :: rest => do _ <- exec c; run rest
  end.

Definition starts (name : string) (c : call) : Prop :=
  exists now, c = CallStartKeyStageRecord name now.

Definition ends (name : string) (c : call) : Prop :=
  exists now, c = CallEndKeyStageRecord name now.

End Reporter.

(** ** progress_bar.go: [ProgressBar] *)

Module Bar.

Import GoRun.
Local Open Scope go_scope.

(** [mu] is [true] while the mutex is held. *)
Record ProgressBar : Type := Build {
  total : Z;
  current : Z;
  barLength : Z;
  startTime : GoTime.Time;
  description : string;
  currentStageName : string;
  mu : bool
}.

Definition set_total (v : Z) (pb : ProgressBar) : ProgressBar :=
  Build v (current pb) (barLength pb) (startTime pb) (description pb)
    (currentStageName pb) (mu pb).
Definition set_current (v : Z) (pb : ProgressBar) : ProgressBar :=
  Build (total pb) v (barLength pb) (startTime pb) (description pb)
    (currentStageName pb) (mu pb).
Definition set_currentStageName (v : string) (pb : ProgressBar) : ProgressBar :=
  Build (total pb) (current pb) (barLength pb) (startTime pb) (description pb)
    v (mu pb).
Definition set_mu (v : bool) (pb : ProgressBar) : ProgressBar :=
  Build (total pb) (current pb) (barLength pb) (startTime pb) (description pb)
    (currentStageName pb) v.

Definition NewProgressBar (description : string) (total barLength : Z)
    (now : GoTime.Time) : ProgressBar :=
  Build total 0 barLength now description EmptyString false.

(** [pb.mu.Lock()] by the only goroutine: it blocks for ever when the
    mutex is already held. *)
Definition Lock : M ProgressBar unit :=
  do pb <- get;
  if mu pb then lift (Panic Deadlock) else modify (set_mu true).

Definition Unlock : M ProgressBar unit :=
  do pb <- get;
  if mu pb then modify (set_mu false) else lift (Panic UnlockOfUnlockedMutex).

(** [strings.Repeat(s, count)] *)
Definition Repeat (s : string) (count : Z) : result string :=
  if count <? 0 then Panic NegativeRepeatCount
  else Ok (GoFmt.repeat_string s (Z.to_nat count)).

(** The variable [avgSpeed] of [formatProgressBar]. *)
Definition avgSpeed (current : Z) (elapsedSeconds : GoFloat.float64)
  : result GoFloat.float64 :=
  if GoFloat.flt GoFloat.zero elapsedSeconds && (0 <? current)
  then GoFloat.fdiv (GoFloat.of_int current) elapsedSeconds
  else Ok GoFloat.zero.

(** The variable [avgSpeedString]. *)
Definition avgSpeedString (current : Z) (elapsedSeconds speed : GoFloat.float64)
  : string :=
  if GoFloat.flt GoFloat.zero elapsedSeconds && (0 <? current)
  then GoFloat.fmt_f 1 speed +:+ " items/s"
  else if (current =? 0) && GoFloat.flt GoFloat.zero elapsedSeconds
  then "0.0 items/s"
  else "0.0 items/s".

(** The remaining time printed when the speed is positive:
    [(time.Duration(etaSeconds*1000) * time.Millisecond).Round(time.Second)]. *)
Definition etaDuration (etaSeconds : GoFloat.float64) : GoTime.Duration :=
  GoTime.Round
    (GoInt.mul (GoFloat.to_int (GoFloat.fmul etaSeconds (GoFloat.of_int 1000)))
       GoTime.Millisecond)
    GoTime.Second.

(** The variable [etaString]. *)
Definition etaString (current total : Z) (speed : GoFloat.float64)
  : result string :=
  if current =? total then Ok "Done"%string
  else if GoFloat.flt GoFloat.zero speed then
    let remainingItems := GoInt.sub total current in
    do? etaSeconds <- GoFloat.fdiv (GoFloat.of_int remainingItems) speed;
    Ok (GoTime.Duration_String (etaDuration etaSeconds))
  else if (current =? 0) && (0 <? total) then Ok "Estimating..."%string
  else Ok "N/A"%string.

Definition cr : string := String (ascii_of_nat 13) EmptyString.

(** The common tail of the two formats:
    [" (%d/%d) | Stage: %s | Elapsed: %s | Avg: %s | ETA: %s"]. *)
Definition status_tail (current total : Z) (currentStageName : string)
    (elapsedTime : GoTime.Duration) (avg eta : string) : string :=
  " (" +:+ GoFmt.fmt_d current +:+ "/" +:+ GoFmt.fmt_d total
    +:+ ") | Stage: " +:+ currentStageName
    +:+ " | Elapsed: " +:+ GoTime.Duration_String (GoTime.Round elapsedTime GoTime.Second)
    +:+ " | Avg: " +:+ avg
    +:+ " | ETA: " +:+ eta.

(** [formatProgressBar]; the receiver is not used. *)
Definition formatProgressBar (current total : Z) (description : string)
    (barLength : Z) (startTime : GoTime.Time) (currentStageName : string)
    (now : GoTime.Time) : result string :=
  let elapsedTime := GoTime.Since now startTime in
  do? elapsedSeconds <- GoTime.Seconds elapsedTime;
  do? speed <- avgSpeed current elapsedSeconds;
  let avg := avgSpeedString current elapsedSeconds speed in
  do? eta <- etaString current total speed;
  if total =? 0 then
    do? dashes <- Repeat "-" barLength;
    Ok (cr +:+ description +:+ ": [ " +:+ dashes +:+ " ] " +:+ GoFmt.fmt_d 0 +:+ "%"
          +:+ status_tail current total currentStageName elapsedTime avg eta)
  else
    do? percent <- GoFloat.fdiv (GoFloat.of_int current) (GoFloat.of_int total);
    let filledLength :=
      GoFloat.to_int (GoFloat.fmul (GoFloat.of_int barLength) percent) in
    do? filled <- Repeat "=" filledLength;
    do? dashes <- Repeat "-" (GoInt.sub barLength filledLength);
    let bar := filled +:+ dashes in
    Ok (cr +:+ description +:+ ": [" +:+ bar +:+ "] "
          +:+ GoFmt.fmt_width 3
                (GoFloat.fmt_f 0 (GoFloat.fmul percent (GoFloat.of_int 100)))
          +:+ "%"
          +:+ status_tail current total currentStageName elapsedTime avg eta).

(** The status line of [pb] at the clock reading [now]. *)
Definition status_line (pb : ProgressBar) (now : GoTime.Time) : result string :=
  formatProgressBar (current pb) (total pb) (description pb) (barLength pb)
    (startTime pb) (currentStageName pb) now.

Definition displayWithoutLock (current total : Z) (description : string)
    (barLength : Z) (startTime : GoTime.Time) (currentStageName : string)
    (now : GoTime.Time) : M ProgressBar unit :=
  do output <- lift (formatProgressBar current total description barLength
                       startTime currentStageName now);
  do _ <- Print output;
  if current =? total then Println EmptyString else ret tt.

(** The console [out] after the status line [line] of [pb] has been shown. *)
Definition shown (pb : ProgressBar) (line : string) (out : list string)
  : list string :=
  if current pb =? total pb then (out ++ [line]) ++ [newline] else out ++ [line].

Definition Display (now : GoTime.Time) : M ProgressBar unit :=
  do _ <- Lock;
  defer Unlock (
    do pb <- get;
    do output <- lift (formatProgressBar (current pb) (total pb) (description pb)
                         (barLength pb) (startTime pb) (currentStageName pb) now);
    do _ <- Print output;
    do pb <- get;
    if current pb =? total pb then Println EmptyString else ret tt).

(** The refresh that ends every mutating method. *)
Definition refresh (now : GoTime.Time) : M ProgressBar unit :=
  do pb <- get;
  displayWithoutLock (current pb) (total pb) (description pb) (barLength pb)
    (startTime pb) (currentStageName pb) now.

Definition IncrementBy (n : Z) (now : GoTime.Time) : M ProgressBar unit :=
  do _ <- Lock;
  defer Unlock (
    if n <? 0 then Println "Error: Increment value cannot be negative."
    else
      do _ <- modify (fun pb => set_current (GoInt.add (current pb) n) pb);
      do pb <- get;
      do _ <- (if total pb <? current pb
               then modify (set_current (total pb)) else ret tt);
      refresh now).

Definition Increment (now : GoTime.Time) : M ProgressBar unit :=
  IncrementBy 1 now.

Definition AddTotal (n : Z) (now : GoTime.Time) : M ProgressBar unit :=
  do _ <- Lock;
  defer Unlock (
    do _ <- modify (fun pb => set_total (GoInt.add (total pb) n) pb);
    do pb <- get;
    do _ <- (if total pb <? 0 then modify (set_total 0) else ret tt);
    do pb <- get;
    do _ <- (if total pb <? current pb
             then modify (set_current (total pb)) else ret tt);
    refresh now).

Definition SetCurrentStage (name : string) (now : GoTime.Time)
  : M ProgressBar unit :=
  do _ <- Lock;
  defer Unlock (
    do _ <- modify (set_currentStageName name);
    refresh now).

(** The stage name that [Finish] sets: two CJK characters, six bytes in
    UTF-8. *)
Definition done_label : string :=
  String (ascii_of_nat 229) (String (ascii_of_nat 174) (String (ascii_of_nat 140)
 (String (ascii_of_nat 230) (String (ascii_of_nat 136) (String (ascii_of_nat 144)
  EmptyString))))).

Definition Finish (now : GoTime.Time) : M ProgressBar unit :=
  do _ <- Lock;
  defer Unlock (
    do _ <- modify (fun pb => set_current (total pb) pb);
    do _ <- modify (set_currentStageName done_label);
    do _ <- refresh now;
    Println EmptyString).

(** A call of one of the two methods that move the counters. *)
Inductive call : Type :=
| CallIncrementBy (n : Z) (now : GoTime.Time)
| CallAddTotal (n : Z) (now : GoTime.Time).

Definition exec (c : call) : M ProgressBar unit :=
  match c with
  | CallIncrementBy n now => IncrementBy n now
  | CallAddTotal n now => AddTotal n now
  end.

(** The states after each call of a sequence, in order. A call that panics
    while it renders has moved the counters and released the mutex before;
    the sequence goes on from the state it leaves. *)
Fixpoint states (calls : list call) (w : proc ProgressBar)
  : list (proc ProgressBar) :=
  match calls with
  | [] => []
  | c :: rest => let w' := snd (exec c w) in w' :: states rest w'
  end.

(** [0 <= current <= total] *)
Definition counters_ok (pb : ProgressBar) : Prop :=
  0 <= current pb <= total pb.

(** Every argument is an [int], and no [IncrementBy] has a negative one. *)
Definition valid_calls (calls : list call) : Prop :=
  Forall (fun c => match c with
                   | CallIncrementBy n _ => 0 <= n <= GoInt.MaxInt
                   | CallAddTotal n _ => GoInt.in_range n
                   end) calls.

(** No [pb.current += n] of the sequence exceeds the largest [int]. *)
Fixpoint advances_fit (calls : list call) (w : proc ProgressBar) : Prop :=
  match calls with
  | [] => True
  | c :: rest =>
      match c with
      | CallIncrementBy n _ => current (self w) + n <= GoInt.MaxInt
      | CallAddTotal _ _ => True
      end /\ advances_fit rest (snd (exec c w))
  end.

End Bar.

(** ** Goroutines that call [Increment] concurrently

    Each goroutine issues a number of [pb.Increment()] calls, one after the
    other. A call is executed in six atomic steps, between which the other
    goroutines may run; the scheduler picks the goroutine that makes the next
    step, and a goroutine whose [Lock] finds the mutex held cannot be picked. *)

Module Workers.

Import GoRun Bar.

(** Where a goroutine stands in its current call of [IncrementBy(n)]. *)
Inductive pc : Type :=
| Idle              (* before [pb.mu.Lock()] *)
| Locked            (* the mutex is held; before [n < 0] and the read of [pb.current] *)
| Loaded (c : Z)    (* [pb.current] is in a register; before [pb.current = c + n] *)
| Stored            (* before [if pb.current > pb.total] *)
| Clamped           (* before [pb.displayWithoutLock(...)] *)
| Shown.            (* before the deferred [pb.mu.Unlock()] *)

(** [todo]: the calls still to return, the current one included. *)
Record goroutine : Type := Goroutine { at_pc : pc; todo : nat }.

(** [crash]: the panic that ended the program, if any. *)
Record system : Type := System {
  shared : proc ProgressBar;
  pool : list goroutine;
  crash : option panic
}.

Definition on_self (f : ProgressBar -> ProgressBar) (w : proc ProgressBar)
  : proc ProgressBar :=
  Proc (f (self w)) (stdout w).

(** One atomic step of goroutine [i]; [now] is what [time.Now] returns if
    the step renders the status line. [None]: the goroutine does not exist,
    has returned from its last call, waits for the mutex, or the program
    has ended. *)
Definition step_IncrementBy (n : Z) (i : nat) (now : GoTime.Time) (s : system)
  : option system :=
  match crash s, pool s !! i with
  | None, Some (Goroutine at_ (S k)) =>
      let w := shared s in
      let continue w' at' n :=
        Some (System w' (<[i := Goroutine at' n]> (pool s)) None) in
      match at_ with
      | Idle =>
          if mu (self w) then None
          else continue (on_self (set_mu true) w) Locked (S k)
      | Locked =>
          if n <? 0 then
            continue (snd (Println "Error: Increment value cannot be negative." w))
              Shown (S k)
          else continue w (Loaded (current (self w))) (S k)
      | Loaded c =>
          continue (on_self (set_current (GoInt.add c n)) w) Stored (S k)
      | Stored =>
          continue
            (if total (self w) <? current (self w)
             then on_self (set_current (total (self w))) w else w)
            Clamped (S k)
      | Clamped =>
          match refresh now w with
          | (Ok _, w') => continue w' Shown (S k)
          | (Panic p, w') => Some (System w' (pool s) (Some p))
          end
      | Shown =>
          continue (on_self (set_mu false) w) Idle k
      end
  | _, _ => None
  end.

(** [Increment] is [IncrementBy(1)]. *)
Definition step : nat -> GoTime.Time -> system -> option system :=
  step_IncrementBy 1.

(** A schedule: which goroutine steps next, and the clock it reads. *)
Fixpoint run (schedule : list (nat * GoTime.Time)) (s : system) : option system :=
  match schedule with
  | [] => Some s
  | (i, now) :: rest =>
      match step i now s with
      | Some s' => run rest s'
      | None => None
      end
  end.

(** [n] goroutines that each are to call [Increment] [m] times. *)
Definition start (pb : ProgressBar) (n m : nat) : system :=
  System (Proc pb []) (replicate n (Goroutine Idle m)) None.

(** All goroutines have returned from all their calls. *)
Definition all_returned (s : system) : Prop :=
  crash s = None /\ Forall (fun g => todo g = O) (pool s).

(** The goroutines between [Lock] and [Unlock]. *)
Definition inside (g : goroutine) : bool :=
  match at_pc g with
  | Idle => false
  | _ => true
  end.

(** The goroutines whose current call has written [pb.current]. *)
Definition stored (g : goroutine) : bool :=
  match at_pc g with
  | Stored | Clamped | Shown => true
  | _ => false
  end.

(** The increments that the goroutines have yet to write. *)
Definition owed (g : goroutine) : Z :=
  Z.of_nat (todo g) - (if stored g then 1 else 0).

Fixpoint pending (gs : list goroutine) : Z :=
  match gs with
  | [] => 0
  | g :: rest => owed g + pending rest
  end.

(** What holds in every state that [n] goroutines with [m] calls each can
    reach on a bar whose total is [t]: the total is [t]; every increment is
    either written or owed; a goroutine is between [Lock] and [Unlock] only
    with the mutex held and with a call to finish, and no two are; a value
    read from [pb.current] is still the value of [pb.current]. *)
Record invariant (t k : Z) (s : system) : Prop := Invariant {
  inv_total : total (self (shared s)) = t;
  inv_sum : current (self (shared s)) + pending (pool s) = k;
  inv_current : 0 <= current (self (shared s));
  inv_mutex : forall i g, pool s !! i = Some g -> inside g = true ->
                mu (self (shared s)) = true /\ (0 < todo g)%nat;
  inv_alone : forall i j gi gj, pool s !! i = Some gi -> pool s !! j = Some gj ->
                inside gi = true -> inside gj = true -> i = j;
  inv_held : mu (self (shared s)) = true ->
               exists i g, pool s !! i = Some g /\ inside g = true;
  inv_loaded : forall i n c, pool s !! i = Some (Goroutine (Loaded c) n) ->
                 c = current (self (shared s))
}.

End Workers.

(** ** The samples that a sequence of recording calls takes *)

Module History.

Import GoRun Reporter.

(** The statistics after one more sample [d]: the four updates of
    [EndKeyStageRecord]. *)
Definition add_sample (st : Z * Z * Z * Z) (d : GoTime.Duration) : Z * Z * Z * Z :=
  let '(total, count, max, min) := st in
  (GoInt.add total d, GoInt.add count 1,
   (if max <? d then d else max), (if d <? min then d else min)).

(** The samples of the stage [name] that a sequence of calls records, in
    order: every [EndKeyStageRecord(name)] measures from the start time that
    the record holds, which is the clock reading of the latest
    [StartKeyStageRecord(name)]; [pending] is that reading at the beginning
    of the sequence, if the record exists. *)
Fixpoint samples (name : string) (pending : option GoTime.Time) (calls : list call)
  : list GoTime.Duration :=
  match calls with
  | [] => []
  | CallStartKeyStageRecord n now :: rest =>
      if decide (n = name) then samples name (Some now) rest
      else samples name pending rest
  | CallEndKeyStageRecord n now :: rest =>
      if decide (n = name) then
        match pending with
        | Some t0 => GoTime.Sub now t0 :: samples name pending rest
        | None => []
        end
      else samples name pending rest
  | _ :: rest => samples name pending rest
  end.

(** The sum of a list of durations. *)
Fixpoint list_sum_Z (ds : list GoTime.Duration) : Z :=
  match ds with
  | [] => 0
  | d :: rest => d + list_sum_Z rest
  end.

End History.

(** ** Magnitudes of [float64] values

    A finite value [m * 2^e] is compared with another through the integers
    [m * 2^(e + bias)]: every exponent met in the package is above
    [- bias]. *)

Module FloatBounds.

Definition bias : Z := 1200.

Definition scaled (m e : Z) : Z := m * 2 ^ (e + bias).






End FloatBounds.

(** ** Programs that use the bar

    A program, as the bar sees it: the calls of its public methods in
    order, each with the reading of the clock at the call. *)

Module Client.

Import GoRun Bar.
Local Open Scope go_scope.

Inductive call : Type :=
| DoIncrement (now : GoTime.Time)
| DoIncrementBy (n : Z) (now : GoTime.Time)
| DoAddTotal (n : Z) (now : GoTime.Time)
| DoSetCurrentStage (name : string) (now : GoTime.Time)
| DoDisplay (now : GoTime.Time)
| DoFinish (now : GoTime.Time).

Definition exec (c : call) : M ProgressBar unit :=
  match c with
  | DoIncrement now => Increment now
  | DoIncrementBy n now => IncrementBy n now
  | DoAddTotal n now => AddTotal n now
  | DoSetCurrentStage name now => SetCurrentStage name now
  | DoDisplay now => Display now
  | DoFinish now => Finish now
  end.

(** The calls in sequence; a panic ends the program. *)
Fixpoint run (calls : list call) : M ProgressBar unit :=
  match calls with
  | [] => ret tt
  | c :: rest => do _ <- exec c; run rest
  end.




End Client.

(** ** The steps of a schedule *)

Module Schedule.

Import Workers.




End Schedule.

(** ** The revision before [displayWithoutLock]

    In the revision [src/unnamed/part_000] the methods that change the bar
    refresh the display with [pb.Display()], which locks the mutex, while
    they hold the mutex themselves. The fields of the bar and the text of
    the status line are those of the present revision. *)

Module Earlier.

Import GoRun Bar.
Local Open Scope go_scope.

(** [defer cleanup; body] for a body that can block: a goroutine that waits
    for a mutex for ever runs none of its deferred calls. The outcome
    [Panic Deadlock] stands for a call that never returns. *)
Definition defer {A : Type} (cleanup : M ProgressBar unit) (body : M ProgressBar A)
  : M ProgressBar A :=
  fun w =>
    match body w with
    | (Panic Deadlock, w1) => (Panic Deadlock, w1)
    | (r, w1) =>
        match cleanup w1 with
        | (Ok _, w2) => (r, w2)
        | (Panic p, w2) => (Panic p, w2)
        end
    end.

(** [Display] writes the status line itself; with [total == 0] it returns
    before the test [pb.current == pb.total]. *)
Definition Display (now : GoTime.Time) : M ProgressBar unit :=
  do _ <- Lock;
  defer Unlock (
    do pb <- get;
    do output <- lift (formatProgressBar (current pb) (total pb) (description pb)
                         (barLength pb) (startTime pb) (currentStageName pb) now);
    do _ <- Print output;
    if total pb =? 0 then ret tt
    else if current pb =? total pb then Println EmptyString else ret tt).

Definition IncrementBy (n : Z) (now : GoTime.Time) : M ProgressBar unit :=
  do _ <- Lock;
  defer Unlock (
    if n <? 0 then Println "Error: Increment value cannot be negative."
    else
      do _ <- modify (fun pb => set_current (GoInt.add (current pb) n) pb);
      do pb <- get;
      do _ <- (if total pb <? current pb
               then modify (set_current (total pb)) else ret tt);
      Display now).

Definition Increment (now : GoTime.Time) : M ProgressBar unit :=
  IncrementBy 1 now.

Definition SetCurrentStage (name : string) (now : GoTime.Time)
  : M ProgressBar unit :=
  do _ <- Lock;
  defer Unlock (
    do _ <- modify (set_currentStageName name);
    Display now).

Definition Finish (now : GoTime.Time) : M ProgressBar unit :=
  do _ <- Lock;
  defer Unlock (
    do _ <- modify (fun pb => set_current (total pb) pb);
    do _ <- modify (set_currentStageName done_label);
    do _ <- Display now;
    Println EmptyString).

End Earlier.

(** * Properties *)

(** ** Examples: the embedding on concrete inputs *)

Example fmt_d_ex : GoFmt.fmt_d (-1203) = "-1203"%string.
Proof. reflexivity. Qed.

Example Duration_String_ex1 :
  GoTime.Duration_String (3723 * GoTime.Second) = "1h2m3s"%string.
Proof. vm_compute. reflexivity. Qed.

Example Duration_String_ex2 :
  GoTime.Duration_String GoTime.maxDuration = "2562047h47m16.854775807s"%string.
Proof. vm_compute. reflexivity. Qed.

Example Duration_String_ex3 :
  GoTime.Duration_String (- 1500 * GoTime.Millisecond) = "-1.5s"%string.
Proof. vm_compute. reflexivity. Qed.

Example Duration_String_ex4 :
  GoTime.Duration_String (120 * GoTime.Second) = "2m0s"%string.
Proof. vm_compute. reflexivity. Qed.

Example Round_ex1 : GoTime.Round 1500000000 GoTime.Second = 2000000000.
Proof. vm_compute. reflexivity. Qed.

Example Round_ex2 : GoTime.Round (-1499999999) GoTime.Second = -1000000000.
Proof. vm_compute. reflexivity. Qed.

Example of_int_ex : GoFloat.of_int 3 = S754_finite false 6755399441055744 (-51).
Proof. vm_compute. reflexivity. Qed.

Example fmt_f_ex1 :
  GoFloat.fmt_f 1 (GoFloat.fquo (GoFloat.of_int 1) (GoFloat.of_int 3)) = "0.3"%string.
Proof. vm_compute. reflexivity. Qed.

Example fmt_f_ex2 :
  GoFloat.fmt_f 0 (GoFloat.fmul (GoFloat.fquo (GoFloat.of_int 5) (GoFloat.of_int 20)) (GoFloat.of_int 100)) = "25"%string.
Proof. vm_compute. reflexivity. Qed.

Example fmt_f_ex3 :
  GoFloat.fmt_f 1 (GoFloat.fquo (GoFloat.of_int 1234567) (GoFloat.of_int 100)) = "12345.7"%string.
Proof. vm_compute. reflexivity. Qed.

Example fmt_f_ex4 :
  GoFloat.fmt_f 0 (GoFloat.fquo (GoFloat.of_int 5) (GoFloat.of_int 2)) = "2"%string
  /\ GoFloat.fmt_f 0 (GoFloat.fquo (GoFloat.of_int 7) (GoFloat.of_int 2)) = "4"%string
  /\ GoFloat.fmt_f 1 (GoFloat.fquo (GoFloat.of_int 1) (GoFloat.of_int 1000)) = "0.0"%string
  /\ GoFloat.fmt_f 1 (GoFloat.fquo (GoFloat.of_int 105) (GoFloat.of_int 100)) = "1.1"%string.
Proof. vm_compute. repeat split; reflexivity. Qed.

Example to_int_ex :
  GoFloat.to_int (GoFloat.fquo (GoFloat.of_int (-7)) (GoFloat.of_int 2)) = -3.
Proof. vm_compute. reflexivity. Qed.

(** ** The package's own tests, run on the embedding *)

Section PackageTests.

Import GoRun Bar.

(** [TestIncrementAndIncrementBy] *)
Example TestIncrementAndIncrementBy :
  let w0 := Proc (NewProgressBar "Test Increment" 10 10 (GoTime.TimeAt 0)) [] in
  let r1 := Increment (GoTime.TimeAt 1000000000) w0 in
  let r2 := IncrementBy 4 (GoTime.TimeAt 2000000000) (snd r1) in
  let r3 := IncrementBy 10 (GoTime.TimeAt 3000000000) (snd r2) in
  let r4 := IncrementBy (-1) (GoTime.TimeAt 4000000000) (snd r3) in
  map (fun r => current (self (snd r))) [r1; r2; r3; r4] = [1; 5; 10; 10].
Proof. vm_compute. reflexivity. Qed.

(** [TestAddTotal] *)
Example TestAddTotal :
  let w0 := Proc (NewProgressBar "Test AddTotal" 10 10 (GoTime.TimeAt 0)) [] in
  let r1 := AddTotal 5 (GoTime.TimeAt 1000000000) w0 in
  let r2 := IncrementBy 12 (GoTime.TimeAt 2000000000) (snd r1) in
  let r3 := AddTotal (-8) (GoTime.TimeAt 3000000000) (snd r2) in
  let r4 := AddTotal (-100) (GoTime.TimeAt 4000000000) (snd r3) in
  map (fun r => (current (self (snd r)), total (self (snd r)))) [r1; r2; r3; r4] = [(0, 15); (12, 15); (7, 7); (0, 0)].
Proof. vm_compute. reflexivity. Qed.

(** [TestFinish] and [TestSetCurrentStage] *)
Example TestFinish :
  let w0 := Proc (NewProgressBar "Test Finish" 10 10 (GoTime.TimeAt 0)) [] in
  let r1 := SetCurrentStage "Processing Data" (GoTime.TimeAt 1000000000) w0 in
  let r2 := IncrementBy 5 (GoTime.TimeAt 2000000000) (snd r1) in
  let r3 := Finish (GoTime.TimeAt 3000000000) (snd r2) in
  currentStageName (self (snd r1)) = "Processing Data"%string /\
  (current (self (snd r3)), total (self (snd r3))) = (10, 10) /\
  currentStageName (self (snd r3)) = done_label.
Proof. vm_compute. repeat split; reflexivity. Qed.

(** [TestDisplayOutput] *)
Example TestDisplayOutput :
  let w0 := Proc (NewProgressBar "Display Test" 100 20 (GoTime.TimeAt 0)) [] in
  let r1 := IncrementBy 25 (GoTime.TimeAt 5000000000) w0 in
  let r2 := SetCurrentStage "Testing Stage" (GoTime.TimeAt 6000000000) (snd r1) in
  let r3 := Display (GoTime.TimeAt 7000000000) (Proc (self (snd r2)) []) in
  stdout (snd r3) =
    [cr +:+ "Display Test: [=====---------------]  25% (25/100) | Stage: Testing Stage | Elapsed: 7s | Avg: 3.6 items/s | ETA: 21s"].
Proof. vm_compute. reflexivity. Qed.

End PackageTests.

(** ** Integers that wrap around *)

Section Integers.

Lemma wrap_in_range z : GoInt.in_range z -> GoInt.wrap z = z.
Proof.
  unfold GoInt.in_range, GoInt.wrap, GoInt.MaxInt, GoInt.MinInt, GoInt.width.
  intros H. rewrite Z.mod_small; lia.
Qed.

Lemma wrap_range z : GoInt.in_range (GoInt.wrap z).
Proof.
  unfold GoInt.in_range, GoInt.wrap, GoInt.MaxInt, GoInt.MinInt, GoInt.width.
  pose proof (Z.mod_pos_bound (z + 2 ^ (64 - 1)) (2 ^ 64) ltac:(lia)). lia.
Qed.

End Integers.

(** ** Rounding a duration to seconds *)

Section Rounding.



End Rounding.

(** ** Floating point: signs and ranges of the values the bar computes *)

Section Floats.

Lemma digits2_pos_lower p : 2 ^ (Zpos (digits2_pos p) - 1) <= Zpos p.
Proof.
  induction p as [p IH|p IH|]; cbn [digits2_pos].
  - rewrite Pos2Z.inj_succ. replace (Z.succ (Zpos (digits2_pos p)) - 1)
      with (Z.succ (Zpos (digits2_pos p) - 1)) by lia.
    rewrite Z.pow_succ_r by lia. lia.
  - rewrite Pos2Z.inj_succ. replace (Z.succ (Zpos (digits2_pos p)) - 1)
      with (Z.succ (Zpos (digits2_pos p) - 1)) by lia.
    rewrite Z.pow_succ_r by lia. lia.
  - cbn. lia.
Qed.




Lemma shr_1_bound mrs : 0 <= shr_m mrs -> 0 <= shr_m (shr_1 mrs) <= shr_m mrs.
Proof.
  destruct mrs as [m r s]. cbn [shr_m]. intros H.
  destruct m as [|[p|p|]|p]; cbn; lia.
Qed.

Lemma iter_shr_1_bound p : forall mrs,
  0 <= shr_m mrs -> 0 <= shr_m (SpecFloat.iter_pos shr_1 p mrs) <= shr_m mrs.
Proof.
  induction p as [p IH|p IH|]; intros mrs H; cbn [SpecFloat.iter_pos].
  - pose proof (shr_1_bound mrs H) as H1.
    pose proof (IH _ (proj1 H1)) as H2. pose proof (IH _ (proj1 H2)) as H3. lia.
  - pose proof (IH _ H) as H2. pose proof (IH _ (proj1 H2)) as H3. lia.
  - apply shr_1_bound. exact H.
Qed.

Lemma shr_fexp_bound m e l :
  0 <= m ->
  0 <= shr_m (fst (shr_fexp GoFloat.prec GoFloat.emax m e l)) <= m /\
  snd (shr_fexp GoFloat.prec GoFloat.emax m e l)
  = Z.max e (fexp GoFloat.prec GoFloat.emax (Zdigits2 m + e)).
Proof.
  intros Hm. unfold shr_fexp, shr.
  assert (Hrec : shr_m (shr_record_of_loc m l) = m) by (destruct l as [|[]]; reflexivity).
  destruct (fexp GoFloat.prec GoFloat.emax (Zdigits2 m + e) - e) as [|p|p] eqn:E;
    cbn [fst snd].
  - rewrite Hrec. lia.
  - pose proof (iter_shr_1_bound p (shr_record_of_loc m l)) as H. rewrite Hrec in H.
    split; [apply H; exact Hm|]. lia.
  - rewrite Hrec. lia.
Qed.

Lemma round_nearest_even_bound m l :
  m <= round_nearest_even m l <= m + 1.
Proof.
  unfold round_nearest_even. destruct l as [|[]]; try lia.
  destruct (Z.even m); lia.
Qed.







Lemma shr_1_half mrs : 0 <= shr_m mrs -> shr_m (shr_1 mrs) = shr_m mrs / 2.
Proof.
  destruct mrs as [m r s]. cbn [shr_m]. intros H.
  destruct m as [|[p|p|]|p]; try lia; cbn [shr_1 shr_m].
  - reflexivity.
  - rewrite Pos2Z.inj_xI. apply Z.div_unique with (r := 1); lia.
  - rewrite Pos2Z.inj_xO. apply Z.div_unique with (r := 0); lia.
  - reflexivity.
Qed.

Lemma iter_shr_1_div p : forall mrs,
  0 <= shr_m mrs ->
  shr_m (SpecFloat.iter_pos shr_1 p mrs) = shr_m mrs / 2 ^ Zpos p.
Proof.
  induction p as [p IH|p IH|]; intros mrs H; cbn [SpecFloat.iter_pos].
  - pose proof (shr_1_bound mrs H) as H1.
    pose proof (iter_shr_1_bound p _ (proj1 H1)) as H2.
    rewrite IH by apply H2. rewrite IH by apply H1. rewrite shr_1_half by exact H.
    rewrite !Z.div_div by lia. f_equal.
    replace (Zpos p~1) with (Zpos p + Zpos p + 1) by lia.
    rewrite !Z.pow_add_r by lia. change (2 ^ 1) with 2. ring.
  - pose proof (iter_shr_1_bound p _ H) as H2.
    rewrite IH by apply H2. rewrite IH by exact H.
    rewrite !Z.div_div by lia. f_equal.
    replace (Zpos p~0) with (Zpos p + Zpos p) by lia.
    rewrite !Z.pow_add_r by lia. ring.
  - rewrite shr_1_half by exact H. reflexivity.
Qed.

Lemma Zdigits2_lower m : 0 < m -> 2 ^ (Zdigits2 m - 1) <= m /\ 0 < Zdigits2 m.
Proof.
  destruct m as [|p|p]; try lia. intros _. cbn [Zdigits2].
  split; [apply digits2_pos_lower|lia].
Qed.

(** A positive mantissa with a moderate exponent keeps a positive mantissa
    when it is shifted to the precision of the format. *)
Lemma shr_fexp_positive m e l :
  0 < m -> -1021 <= e ->
  0 < shr_m (fst (shr_fexp GoFloat.prec GoFloat.emax m e l)) /\
  -1021 <= snd (shr_fexp GoFloat.prec GoFloat.emax m e l).
Proof.
  intros Hm He.
  pose proof (shr_fexp_bound m e l ltac:(lia)) as [_ Hsnd].
  split; [|rewrite Hsnd; lia].
  unfold shr_fexp, shr.
  assert (Hrec : shr_m (shr_record_of_loc m l) = m) by (destruct l as [|[]]; reflexivity).
  destruct (Zdigits2_lower m Hm) as [Hlow Hd].
  destruct (fexp GoFloat.prec GoFloat.emax (Zdigits2 m + e) - e) as [|p|p] eqn:E;
    cbn [fst]; try (rewrite Hrec; exact Hm).
  rewrite iter_shr_1_div by (rewrite Hrec; lia). rewrite Hrec.
  unfold fexp, emin, GoFloat.prec, GoFloat.emax in E.
  assert (Hp : Zpos p <= Zdigits2 m - 1) by lia.
  assert (Hpow : 2 ^ Zpos p <= 2 ^ (Zdigits2 m - 1)) by (apply Z.pow_le_mono_r; lia).
  apply Z.div_str_pos. lia.
Qed.

Lemma binary_round_aux_nonzero s mx ex lx :
  0 < mx -> -1021 <= ex ->
  GoFloat.is_zero (binary_round_aux GoFloat.prec GoFloat.emax s mx ex lx) = false.
Proof.
  intros Hm He. unfold binary_round_aux.
  pose proof (shr_fexp_positive mx ex lx Hm He) as [H1 E1].
  destruct (shr_fexp GoFloat.prec GoFloat.emax mx ex lx) as [mrs' e'].
  cbn [fst snd] in H1, E1.
  pose proof (round_nearest_even_bound (shr_m mrs') (loc_of_shr_record mrs')) as Hr.
  pose proof (shr_fexp_positive (round_nearest_even (shr_m mrs') (loc_of_shr_record mrs'))
                e' loc_Exact ltac:(lia) E1) as [H2 _].
  destruct (shr_fexp GoFloat.prec GoFloat.emax _ e' loc_Exact) as [mrs'' e''].
  cbn [fst] in H2.
  destruct (shr_m mrs'') as [|m|m]; [lia| |reflexivity].
  destruct (e'' <=? GoFloat.emax - GoFloat.prec); reflexivity.
Qed.

Lemma of_int_nonzero c : c <> 0 -> GoFloat.is_zero (GoFloat.of_int c) = false.
Proof.
  intros Hc.
  assert (H : forall s p, GoFloat.is_zero (binary_round GoFloat.prec GoFloat.emax s p 0) = false).
  { intros s p. unfold binary_round.
    destruct (shl_align p 0 (fexp GoFloat.prec GoFloat.emax (Zpos (digits2_pos p) + 0)))
      as [mz ez] eqn:E.
    apply binary_round_aux_nonzero; [lia|].
    unfold shl_align in E.
    destruct (fexp GoFloat.prec GoFloat.emax (Zpos (digits2_pos p) + 0) - 0)
      as [|d|d] eqn:E2; inversion E; subst; clear E; try lia.
    unfold fexp, emin, GoFloat.prec, GoFloat.emax in *. lia. }
  destruct c as [|p|p]; [congruence| |]; apply H.
Qed.

End Floats.

(** ** Rendering: the divisions of [formatProgressBar] *)

Section Rendering.

Import GoRun Bar.

(** A value that compares greater than zero is not a zero. *)
Lemma positive_not_zero x :
  GoFloat.flt GoFloat.zero x = true -> GoFloat.is_zero x = false.
Proof. destruct x as [s|s| |s m e]; cbn; congruence. Qed.

Lemma fdiv_positive x y :
  GoFloat.flt GoFloat.zero y = true -> GoFloat.fdiv x y = Ok (GoFloat.fquo x y).
Proof.
  intros H. unfold GoFloat.fdiv. rewrite (positive_not_zero y H). reflexivity.
Qed.

(** [d.Seconds()] divides by the constant [1e9]. *)
Lemma Seconds_Ok d :
  GoTime.Seconds d =
    Ok (GoFloat.fadd (GoFloat.of_int (GoInt.quo d GoTime.Second))
          (GoFloat.fquo (GoFloat.of_int (GoInt.rem d GoTime.Second))
             (GoFloat.of_int 1000000000))).
Proof. reflexivity. Qed.

(** [avgSpeed] divides by [elapsedSeconds] only where it is positive. *)
Lemma avgSpeed_Ok current elapsedSeconds :
  avgSpeed current elapsedSeconds =
    Ok (if GoFloat.flt GoFloat.zero elapsedSeconds && (0 <? current)
        then GoFloat.fquo (GoFloat.of_int current) elapsedSeconds
        else GoFloat.zero).
Proof.
  unfold avgSpeed.
  destruct (GoFloat.flt GoFloat.zero elapsedSeconds) eqn:E; [|reflexivity].
  destruct (0 <? current); [|reflexivity].
  cbn [andb]. apply fdiv_positive. exact E.
Qed.

(** [etaString] divides by [avgSpeed] only where it is positive. *)
Lemma etaString_Ok current total speed :
  etaString current total speed =
    Ok (if current =? total then "Done"%string
        else if GoFloat.flt GoFloat.zero speed
        then GoTime.Duration_String
               (etaDuration (GoFloat.fquo (GoFloat.of_int (GoInt.sub total current)) speed))
        else if (current =? 0) && (0 <? total) then "Estimating..."%string
        else "N/A"%string).
Proof.
  unfold etaString. destruct (current =? total); [reflexivity|].
  destruct (GoFloat.flt GoFloat.zero speed) eqn:E; [|destruct (_ && _); reflexivity].
  rewrite fdiv_positive by exact E. reflexivity.
Qed.

(** No render divides by zero, whatever the counters are. *)
Lemma formatProgressBar_divisors current total description barLength startTime
    currentStageName now :
  formatProgressBar current total description barLength startTime currentStageName now
    <> Panic DivisionByZero.
Proof.
  unfold formatProgressBar. rewrite Seconds_Ok. cbn [rbind].
  rewrite avgSpeed_Ok. cbn [rbind]. rewrite etaString_Ok. cbn [rbind].
  destruct (Z.eqb_spec total 0) as [->|Hne].
  - unfold Repeat. destruct (barLength <? 0); discriminate.
  - unfold GoFloat.fdiv. rewrite (of_int_nonzero total Hne). cbn [rbind].
    unfold Repeat.
    repeat match goal with
           | |- context [if ?c <? 0 then _ else _] => destruct (c <? 0); cbn [rbind]
           end; discriminate.
Qed.

Lemma append_assoc (a b c : string) : (a +:+ b) +:+ c = a +:+ (b +:+ c).
Proof.
  induction a as [|x a IH]; [reflexivity|].
  change (String x ((a +:+ b) +:+ c) = String x (a +:+ (b +:+ c))).
  rewrite IH. reflexivity.
Qed.

(** A text whose tail ends with a field ends with that field. *)
Lemma append_front (a rest front field : string) :
  rest = front +:+ field -> a +:+ rest = (a +:+ front) +:+ field.
Proof. intros ->. symmetry. apply append_assoc. Qed.



End Rendering.

(** ** The mutating methods of [ProgressBar], run by one goroutine *)

Section BarSequential.

Import GoRun Bar.

(** What [displayWithoutLock] writes: the status line, and a line feed when
    the two counters agree. *)
Lemma displayWithoutLock_spec c t d bl st stage now (w : proc ProgressBar) :
  displayWithoutLock c t d bl st stage now w =
    match formatProgressBar c t d bl st stage now with
    | Ok line =>
        (Ok tt, Proc (self w)
                  (if c =? t then (stdout w ++ [line]) ++ [newline]
                   else stdout w ++ [line]))
    | Panic p => (Panic p, w)
    end.
Proof.
  cbv [displayWithoutLock bind lift Print Println ret self stdout].
  destruct (formatProgressBar c t d bl st stage now); [|reflexivity].
  destruct (c =? t); destruct w; reflexivity.
Qed.

Lemma refresh_spec now (w : proc ProgressBar) :
  refresh now w =
    match status_line (self w) now with
    | Ok line =>
        (Ok tt, Proc (self w)
                  (if current (self w) =? total (self w)
                   then (stdout w ++ [line]) ++ [newline]
                   else stdout w ++ [line]))
    | Panic p => (Panic p, w)
    end.
Proof.
  unfold refresh, bind, get. cbn [fst snd]. apply displayWithoutLock_spec.
Qed.

Lemma refresh_self now (w : proc ProgressBar) :
  self (snd (refresh now w)) = self w.
Proof.
  rewrite refresh_spec. destruct (status_line (self w) now); reflexivity.
Qed.

Lemma IncrementBy_negative n now (w : proc ProgressBar) :
  mu (self w) = false -> n < 0 ->
  IncrementBy n now w =
    (Ok tt, Proc (self w)
              (stdout w ++ ["Error: Increment value cannot be negative." +:+ newline])).
Proof.
  intros Hmu Hn. apply Z.ltb_lt in Hn.
  destruct w as [[t c bl st d sn m] out]. cbn in Hmu. subst m.
  cbv [IncrementBy Lock Unlock defer bind get modify lift ret Print Println
       self stdout mu set_mu total current barLength startTime description
       currentStageName].
  rewrite Hn. reflexivity.
Qed.

Lemma IncrementBy_nonnegative n now (w : proc ProgressBar) :
  mu (self w) = false -> 0 <= n ->
  let c := GoInt.add (current (self w)) n in
  let pb' := set_current (if total (self w) <? c then total (self w) else c) (self w) in
  IncrementBy n now w =
    match status_line pb' now with
    | Ok line => (Ok tt, Proc pb' (shown pb' line (stdout w)))
    | Panic p => (Panic p, Proc pb' (stdout w))
    end.
Proof.
  intros Hmu Hn. assert (Hn' : (n <? 0) = false) by (apply Z.ltb_ge; lia).
  destruct w as [[t c bl st d sn m] out]. cbn in Hmu. subst m.
  cbv [IncrementBy Lock Unlock defer bind get modify lift ret
       self stdout mu set_mu set_current total current barLength startTime
       description currentStageName].
  rewrite Hn'.
  destruct (t <? GoInt.add c n) eqn:Hc;
    cbv [bind modify ret self stdout set_current total current barLength startTime
         description currentStageName mu];
    rewrite refresh_spec;
    cbv [status_line shown self stdout total current barLength startTime description
         currentStageName mu set_current];
    match goal with
    | |- context [formatProgressBar ?a ?b ?c ?d ?e ?f ?g] =>
        destruct (formatProgressBar a b c d e f g)
    end; reflexivity.
Qed.

Lemma AddTotal_spec n now (w : proc ProgressBar) :
  mu (self w) = false ->
  let t1 := GoInt.add (total (self w)) n in
  let t' := if t1 <? 0 then 0 else t1 in
  let c' := if t' <? current (self w) then t' else current (self w) in
  let pb' := set_current c' (set_total t' (self w)) in
  AddTotal n now w =
    match status_line pb' now with
    | Ok line => (Ok tt, Proc pb' (shown pb' line (stdout w)))
    | Panic p => (Panic p, Proc pb' (stdout w))
    end.
Proof.
  intros Hmu.
  destruct w as [[t c bl st d sn m] out]. cbn in Hmu. subst m.
  cbv [AddTotal Lock Unlock defer bind get modify lift ret
       self stdout mu set_mu set_current set_total total current barLength
       startTime description currentStageName].
  destruct (GoInt.add t n <? 0) eqn:Ht;
    cbv [bind modify ret get self stdout set_current set_total total current
         barLength startTime description currentStageName mu];
    match goal with
    | |- context [if ?a <? c then _ else _] => destruct (a <? c) eqn:Hc
    end;
    cbv [bind modify ret self stdout set_current total current barLength startTime
         description currentStageName mu];
    rewrite refresh_spec;
    cbv [status_line shown self stdout total current barLength startTime description
         currentStageName mu set_current];
    match goal with
    | |- context [formatProgressBar ?a ?b ?c ?d ?e ?f ?g] =>
        destruct (formatProgressBar a b c d e f g)
    end; reflexivity.
Qed.

Lemma Display_spec now (w : proc ProgressBar) :
  mu (self w) = false ->
  Display now w =
    match status_line (self w) now with
    | Ok line => (Ok tt, Proc (self w) (shown (self w) line (stdout w)))
    | Panic p => (Panic p, w)
    end.
Proof.
  intros Hmu.
  destruct w as [[t c bl st d sn m] out]. cbn in Hmu. subst m.
  cbv [Display Lock Unlock defer bind get modify lift ret Print Println
       self stdout mu set_mu total current barLength startTime description
       currentStageName status_line shown].
  destruct (formatProgressBar c t d bl st sn now); [|reflexivity].
  cbv [self stdout current total]. destruct (c =? t); reflexivity.
Qed.

Lemma IncrementBy_self n now (w : proc ProgressBar) :
  mu (self w) = false -> 0 <= n ->
  let c := GoInt.add (current (self w)) n in
  self (snd (IncrementBy n now w)) =
    set_current (if total (self w) <? c then total (self w) else c) (self w).
Proof.
  intros Hmu Hn. cbv zeta. rewrite IncrementBy_nonnegative by assumption.
  cbv zeta. destruct (status_line _ now); reflexivity.
Qed.

Lemma AddTotal_self n now (w : proc ProgressBar) :
  mu (self w) = false ->
  let t1 := GoInt.add (total (self w)) n in
  let t' := if t1 <? 0 then 0 else t1 in
  let c' := if t' <? current (self w) then t' else current (self w) in
  self (snd (AddTotal n now w)) = set_current c' (set_total t' (self w)).
Proof.
  intros Hmu. cbv zeta. rewrite AddTotal_spec by assumption.
  cbv zeta. destruct (status_line _ now); reflexivity.
Qed.

(** One call keeps the mutex free and the counters in order. *)
Lemma exec_keeps c (w : proc ProgressBar) :
  mu (self w) = false -> counters_ok (self w) ->
  valid_calls [c] -> advances_fit [c] w ->
  mu (self (snd (exec c w))) = false /\ counters_ok (self (snd (exec c w))).
Proof.
  intros Hmu [H0 Hle] Hv Hfit. apply Forall_inv in Hv. destruct Hfit as [Hfit _].
  destruct c as [n now|n now]; cbn [exec].
  - destruct Hv as [Hn _]. rewrite IncrementBy_self by assumption.
    unfold GoInt.add. rewrite wrap_in_range.
    2:{ unfold GoInt.in_range, GoInt.MinInt, GoInt.width. lia. }
    destruct w as [[t c bl st d sn m] out]. unfold counters_ok in *. cbn in *.
    split; [assumption|]. destruct (t <? c + n) eqn:E; cbn.
    + lia.
    + apply Z.ltb_ge in E. lia.
  - rewrite AddTotal_self by assumption.
    destruct w as [[t c bl st d sn m] out]. unfold counters_ok in *. cbn in *.
    split; [assumption|].
    destruct (GoInt.add t n <? 0) eqn:E1.
    + destruct (0 <? c) eqn:E2; cbn; lia.
    + apply Z.ltb_ge in E1.
      destruct (GoInt.add t n <? c) eqn:E2; cbn.
      * lia.
      * apply Z.ltb_ge in E2. lia.
Qed.

Lemma states_keep calls : forall (w : proc ProgressBar),
  mu (self w) = false -> counters_ok (self w) ->
  valid_calls calls -> advances_fit calls w ->
  Forall (fun w' => counters_ok (self w')) (states calls w).
Proof.
  induction calls as [|c rest IH]; intros w Hmu Hok Hv Hfit; cbn [states].
  - constructor.
  - destruct Hfit as [Hc Hrest].
    destruct (exec_keeps c w Hmu Hok) as [Hmu' Hok'].
    + constructor; [exact (Forall_inv Hv)|constructor].
    + split; [exact Hc|exact I].
    + constructor; [exact Hok'|].
      apply IH; try assumption. exact (Forall_inv_tail Hv).
Qed.

End BarSequential.

(** ** The claims about [ProgressBar] *)

Section BarClaims.

Import GoRun Bar.

(** C1, as amended. For every sequence of [IncrementBy] calls with
    non-negative arguments and [AddTotal] calls with arbitrary arguments on
    a bar created with [total >= 0], in which no [pb.current += n] exceeds
    the largest [int], [0 <= current <= total] holds after every call. *)
Theorem counters_ok_after_every_call description total barLength t0 calls :
  0 <= total ->
  valid_calls calls ->
  advances_fit calls (Proc (NewProgressBar description total barLength t0) []) ->
  Forall (fun w => counters_ok (self w))
    (states calls (Proc (NewProgressBar description total barLength t0) [])).
Proof.
  intros Ht Hv Hfit. apply states_keep; try assumption.
  - reflexivity.
  - unfold counters_ok. cbn. lia.
Qed.

Lemma counters_ok_after_every_call_witness :
  Forall (fun w => counters_ok (self w))
    (states [CallIncrementBy 5 (GoTime.TimeAt 1); CallAddTotal (-18) (GoTime.TimeAt 2);
             CallIncrementBy 7 (GoTime.TimeAt 3)]
       (Proc (NewProgressBar "T" 20 10 (GoTime.TimeAt 0)) [])).
Proof.
  apply (counters_ok_after_every_call "T" 20 10 (GoTime.TimeAt 0)).
  - lia.
  - unfold valid_calls, GoInt.in_range, GoInt.MaxInt, GoInt.MinInt, GoInt.width.
    repeat constructor; lia.
  - vm_compute. repeat split; discriminate.
Defined.

(** C1, as stated, fails when an addition wraps around: on a bar created
    with the largest total, [IncrementBy(1)] and then
    [IncrementBy(MaxInt)] leave [current] at the smallest [int]. *)
Lemma counters_ok_counterexample :
  let w0 := Proc (NewProgressBar "T" GoInt.MaxInt 10 (GoTime.TimeAt 0)) [] in
  let calls := [CallIncrementBy 1 (GoTime.TimeAt 1);
                CallIncrementBy GoInt.MaxInt (GoTime.TimeAt 2)] in
  0 <= GoInt.MaxInt /\ valid_calls calls /\
  (current <$> (self <$> states calls w0)) = [1; GoInt.MinInt] /\
  ~ Forall (fun w => counters_ok (self w)) (states calls w0).
Proof.
  cbv zeta. split; [|split; [|split]].
  - vm_compute. discriminate.
  - unfold valid_calls, GoInt.in_range, GoInt.MaxInt, GoInt.MinInt, GoInt.width.
    repeat constructor; lia.
  - vm_compute. reflexivity.
  - intros H. apply Forall_inv_tail, Forall_inv in H.
    unfold counters_ok in H. vm_compute in H. destruct H as [H _]. apply H. reflexivity.
Qed.

(** C2. For every [n < 0], [IncrementBy(n)] is rejected: it returns
    without a panic, leaves the bar ([current] and [total] included) as it
    was, and writes the warning and nothing else: no status line. *)
Theorem IncrementBy_negative_is_rejected n now (w : proc ProgressBar) :
  mu (self w) = false -> n < 0 ->
  fst (IncrementBy n now w) = Ok tt /\
  self (snd (IncrementBy n now w)) = self w /\
  current (self (snd (IncrementBy n now w))) = current (self w) /\
  total (self (snd (IncrementBy n now w))) = total (self w) /\
  stdout (snd (IncrementBy n now w)) =
    stdout w ++ ["Error: Increment value cannot be negative." +:+ newline].
Proof.
  intros Hmu Hn. rewrite IncrementBy_negative by assumption. cbn.
  repeat split; reflexivity.
Qed.

Lemma IncrementBy_negative_is_rejected_witness :
  let w := Proc (NewProgressBar "T" 10 10 (GoTime.TimeAt 0)) [] in
  fst (IncrementBy (-1) (GoTime.TimeAt 1) w) = Ok tt /\
  self (snd (IncrementBy (-1) (GoTime.TimeAt 1) w)) = self w /\
  current (self (snd (IncrementBy (-1) (GoTime.TimeAt 1) w))) = current (self w) /\
  total (self (snd (IncrementBy (-1) (GoTime.TimeAt 1) w))) = total (self w) /\
  stdout (snd (IncrementBy (-1) (GoTime.TimeAt 1) w)) =
    stdout w ++ ["Error: Increment value cannot be negative." +:+ newline].
Proof.
  apply (IncrementBy_negative_is_rejected (-1) (GoTime.TimeAt 1)
           (Proc (NewProgressBar "T" 10 10 (GoTime.TimeAt 0)) [])).
  - reflexivity.
  - lia.
Defined.

(** C3, as amended. [AddTotal(delta)] sets [total] to the larger of 0 and
    the sum of the old total and [delta] taken in [int] arithmetic, which
    is [max(old total + delta, 0)] whenever that sum is an [int]; if
    [current] then exceeds the new total it is set to the new total, and
    else it is kept; the total is never left negative. *)
Theorem AddTotal_sets_total delta now (w : proc ProgressBar) :
  mu (self w) = false ->
  let pb := self w in
  let pb' := self (snd (AddTotal delta now w)) in
  total pb' = Z.max (GoInt.add (total pb) delta) 0 /\
  (GoInt.in_range (total pb + delta) -> total pb' = Z.max (total pb + delta) 0) /\
  current pb' = (if total pb' <? current pb then total pb' else current pb) /\
  0 <= total pb'.
Proof.
  intros Hmu. cbv zeta. rewrite AddTotal_self by assumption.
  destruct w as [[t c bl st d sn m] out]. cbn.
  assert (E : (if GoInt.add t delta <? 0 then 0 else GoInt.add t delta)
              = Z.max (GoInt.add t delta) 0).
  { destruct (GoInt.add t delta <? 0) eqn:E; [apply Z.ltb_lt in E|apply Z.ltb_ge in E]; lia. }
  rewrite E. repeat split.
  - intros Hr. unfold GoInt.add. rewrite wrap_in_range by assumption. reflexivity.
  - lia.
Qed.

Lemma AddTotal_sets_total_witness :
  let w := Proc (Build 15 12 10 (GoTime.TimeAt 0) "T" EmptyString false) [] in
  let pb' := self (snd (AddTotal (-8) (GoTime.TimeAt 1) w)) in
  total pb' = 7 /\ current pb' = 7.
Proof.
  cbv zeta.
  pose proof (AddTotal_sets_total (-8) (GoTime.TimeAt 1)
                (Proc (Build 15 12 10 (GoTime.TimeAt 0) "T" EmptyString false) [])
                eq_refl) as H.
  cbv zeta in H. destruct H as (Ht & _ & Hc & _).
  split.
  - rewrite Ht. reflexivity.
  - rewrite Hc, Ht. reflexivity.
Defined.

(** C3, as stated, fails when [pb.total += n] wraps around: on a bar with
    the largest total, [AddTotal(1)] leaves [total] at 0, not at
    [max(total + 1, 0)]. *)
Lemma AddTotal_counterexample :
  let w := Proc (NewProgressBar "T" GoInt.MaxInt 10 (GoTime.TimeAt 0)) [] in
  let pb' := self (snd (AddTotal 1 (GoTime.TimeAt 1) w)) in
  total pb' = 0 /\ total pb' <> Z.max (total (self w) + 1) 0.
Proof.
  cbv zeta. split.
  - vm_compute. reflexivity.
  - vm_compute. discriminate.
Qed.

(** C5. With [total == 0], [formatProgressBar] performs no division by
    zero: it takes the branch that writes an empty bar of [barLength]
    dashes, [0%] and the counts [(current/0)] as they are. (A negative
    [barLength] makes [strings.Repeat] panic; that is no division.) *)
Theorem formatProgressBar_total_zero current description barLength startTime
    currentStageName now :
  formatProgressBar current 0 description barLength startTime currentStageName now
    <> Panic DivisionByZero /\
  (0 <= barLength ->
   exists elapsed avg eta,
     formatProgressBar current 0 description barLength startTime currentStageName now
     = Ok (cr +:+ description +:+ ": [ "
             +:+ GoFmt.repeat_string "-" (Z.to_nat barLength) +:+ " ] 0% ("
             +:+ GoFmt.fmt_d current +:+ "/0) | Stage: " +:+ currentStageName
             +:+ " | Elapsed: " +:+ elapsed +:+ " | Avg: " +:+ avg
             +:+ " | ETA: " +:+ eta)).
Proof.
  unfold formatProgressBar. rewrite Seconds_Ok. cbn [rbind].
  rewrite avgSpeed_Ok. cbn [rbind]. rewrite etaString_Ok. cbn [rbind].
  change (0 =? 0) with true. cbv iota. unfold Repeat.
  destruct (barLength <? 0) eqn:E.
  - split; [discriminate|]. apply Z.ltb_lt in E. lia.
  - split; [discriminate|]. intros _. cbn [rbind]. unfold status_tail.
    do 3 eexists. reflexivity.
Qed.

Lemma formatProgressBar_total_zero_witness :
  exists elapsed avg eta,
    formatProgressBar 0 0 "T" 4 (GoTime.TimeAt 0) "load" (GoTime.TimeAt 3000000000)
    = Ok (cr +:+ "T" +:+ ": [ " +:+ GoFmt.repeat_string "-" (Z.to_nat 4) +:+ " ] 0% ("
            +:+ GoFmt.fmt_d 0 +:+ "/0) | Stage: " +:+ "load"
            +:+ " | Elapsed: " +:+ elapsed +:+ " | Avg: " +:+ avg
            +:+ " | ETA: " +:+ eta).
Proof.
  apply (proj2 (formatProgressBar_total_zero 0 "T" 4 (GoTime.TimeAt 0) "load"
                  (GoTime.TimeAt 3000000000))).
  lia.
Defined.

Example empty_bar_line_ex :
  formatProgressBar 0 0 "T" 4 (GoTime.TimeAt 0) "load" (GoTime.TimeAt 3000000000)
  = Ok (cr +:+ "T: [ ---- ] 0% (0/0) | Stage: load | Elapsed: 3s | Avg: 0.0 items/s | ETA: Done").
Proof. vm_compute. reflexivity. Qed.



Example quarter_done_line_ex :
  formatProgressBar 5 20 "T" 10 (GoTime.TimeAt 0) EmptyString (GoTime.TimeAt 10000000000)
  = Ok (cr +:+ "T: [==--------]  25% (5/20) | Stage:  | Elapsed: 10s | Avg: 0.5 items/s | ETA: 30s").
Proof. vm_compute. reflexivity. Qed.

(** C6, as amended. [Display] and [displayWithoutLock] write the status
    line and then a line feed if and only if [current == total]; this
    includes the bar with [total == 0] and [current == 0]. *)
Theorem Display_newline now (w : proc ProgressBar) line :
  mu (self w) = false ->
  status_line (self w) now = Ok line ->
  exists tail,
    Display now w = (Ok tt, Proc (self w) (stdout w ++ line :: tail)) /\
    displayWithoutLock (current (self w)) (total (self w)) (description (self w))
      (barLength (self w)) (startTime (self w)) (currentStageName (self w)) now w
      = (Ok tt, Proc (self w) (stdout w ++ line :: tail)) /\
    (tail = [newline] <-> current (self w) = total (self w)) /\
    (tail = [] <-> current (self w) <> total (self w)).
Proof.
  intros Hmu Hline.
  exists (if current (self w) =? total (self w) then [newline] else []).
  rewrite Display_spec by assumption. rewrite displayWithoutLock_spec.
  fold (status_line (self w) now). rewrite Hline. unfold shown.
  destruct (current (self w) =? total (self w)) eqn:E.
  - apply Z.eqb_eq in E. rewrite <- !app_assoc. cbn [app].
    repeat split; try reflexivity; try congruence; intros; try discriminate.
  - apply Z.eqb_neq in E.
    repeat split; try reflexivity; try congruence; intros; try discriminate.
Qed.

Lemma Display_newline_witness :
  exists line tail,
    Display (GoTime.TimeAt 5) (Proc (Build 20 5 10 (GoTime.TimeAt 0) "T" EmptyString false) [])
    = (Ok tt, Proc (Build 20 5 10 (GoTime.TimeAt 0) "T" EmptyString false) (line :: tail))
    /\ tail = [].
Proof.
  destruct (status_line (Build 20 5 10 (GoTime.TimeAt 0) "T" EmptyString false) (GoTime.TimeAt 5))
    as [line|p] eqn:E; [|vm_compute in E; discriminate].
  destruct (Display_newline (GoTime.TimeAt 5)
              (Proc (Build 20 5 10 (GoTime.TimeAt 0) "T" EmptyString false) []) line eq_refl E)
    as (tail & HD & _ & _ & Hnil).
  exists line, tail. split; [exact HD|].
  apply Hnil. cbn. lia.
Defined.

(** C6, as stated, fails on a bar with [total == 0]: [current == total]
    holds there and [Display] ends the line. *)
Lemma Display_newline_counterexample :
  let w := Proc (NewProgressBar "T" 0 10 (GoTime.TimeAt 0)) [] in
  total (self w) = 0 /\ current (self w) = 0 /\
  exists line,
    stdout (snd (Display (GoTime.TimeAt 1) w)) = [line; newline] /\
    stdout (snd (displayWithoutLock 0 0 "T" 10 (GoTime.TimeAt 0) EmptyString (GoTime.TimeAt 1) w))
      = [line; newline].
Proof.
  cbv zeta. split; [reflexivity|split; [reflexivity|]].
  eexists. split; vm_compute; reflexivity.
Qed.

End BarClaims.

(** ** The recording methods of [ProgressReporter] *)

Section ReporterFacts.

Import GoRun Reporter.

Lemma bind_Ok {T A B} (c : M T A) (k : A -> M T B) w a w' :
  c w = (Ok a, w') -> bind c k w = k a w'.
Proof. intros H. unfold bind. rewrite H. reflexivity. Qed.

Lemma bind_Panic {T A B} (c : M T A) (k : A -> M T B) w p w' :
  c w = (Panic p, w') -> bind c k w = (Panic p, w').
Proof. intros H. unfold bind. rewrite H. reflexivity. Qed.

Lemma load_Some name k (w : proc ProgressReporter) :
  ks (self w) !! name = Some k -> load name w = (Ok k, w).
Proof. intros H. cbv [load bind get ret lift]. rewrite H. reflexivity. Qed.

Lemma load_None name (w : proc ProgressReporter) :
  ks (self w) !! name = None -> load name w = (Panic NilPointerDereference, w).
Proof. intros H. cbv [load bind get ret lift]. rewrite H. reflexivity. Qed.

Lemma store_Some name f k (w : proc ProgressReporter) :
  ks (self w) !! name = Some k ->
  store name f w =
    (Ok tt, Proc (set_ks (<[name := f k]> (ks (self w))) (self w)) (stdout w)).
Proof.
  intros H. unfold store. rewrite (bind_Ok _ _ _ _ _ (load_Some _ _ _ H)).
  reflexivity.
Qed.

Lemma store_None name f (w : proc ProgressReporter) :
  ks (self w) !! name = None -> store name f w = (Panic NilPointerDereference, w).
Proof.
  intros H. unfold store. rewrite (bind_Panic _ _ _ _ _ (load_None _ _ H)).
  reflexivity.
Qed.

Lemma StartKeyStageRecord_spec name now (w : proc ProgressReporter) :
  StartKeyStageRecord name now w =
    (Ok tt,
     Proc (set_ks (<[name := KeyStage.set_startTime now
                               (default (fresh name) (ks (self w) !! name))]>
                     (ks (self w))) (self w))
       (stdout w)).
Proof.
  unfold StartKeyStageRecord.
  rewrite (bind_Ok get _ w (self w) w eq_refl).
  destruct w as [[a b c m] out]. cbn [self ks stdout].
  destruct (m !! name) as [k|] eqn:E.
  - erewrite bind_Ok by reflexivity.
    rewrite (store_Some _ _ k) by assumption. reflexivity.
  - erewrite bind_Ok by reflexivity.
    rewrite (store_Some _ _ (fresh name)).
    + cbn. rewrite insert_insert_eq. reflexivity.
    + cbn. apply lookup_insert_eq.
Qed.

Lemma EndKeyStageRecord_Some name now k (w : proc ProgressReporter) :
  ks (self w) !! name = Some k ->
  EndKeyStageRecord name now w =
    (Ok tt,
     Proc (set_ks (<[name := sampled (GoTime.Sub now (KeyStage.startTime k)) now k]>
                     (ks (self w))) (self w))
       (stdout w)).
Proof.
  intros H. destruct w as [[a b c m] out]. cbn in H.
  destruct k as [kn kt kc kmax kmin ks ke].
  unfold EndKeyStageRecord.
  repeat first
    [ erewrite bind_Ok by (apply load_Some; cbn; apply lookup_insert_eq)
    | erewrite bind_Ok by (eapply store_Some; cbn; first [exact H | apply lookup_insert_eq])
    | erewrite bind_Ok by reflexivity ];
    cbn.
  set (d := GoTime.Sub now ks).
  destruct (kmax <? d) eqn:E1.
  - erewrite bind_Ok by (eapply store_Some; cbn; apply lookup_insert_eq). cbn.
    erewrite bind_Ok by (apply load_Some; cbn; apply lookup_insert_eq). cbn.
    destruct (d <? kmin) eqn:E2.
    + erewrite store_Some by (cbn; apply lookup_insert_eq). cbn.
      rewrite !insert_insert_eq. unfold sampled. cbn. fold d. rewrite E1, E2. reflexivity.
    + cbn. rewrite !insert_insert_eq. unfold sampled. cbn. fold d. rewrite E1, E2.
      reflexivity.
  - erewrite bind_Ok by reflexivity.
    erewrite bind_Ok by (apply load_Some; cbn; apply lookup_insert_eq). cbn.
    destruct (d <? kmin) eqn:E2.
    + erewrite store_Some by (cbn; apply lookup_insert_eq). cbn.
      rewrite !insert_insert_eq. unfold sampled. cbn. fold d. rewrite E1, E2. reflexivity.
    + cbn. rewrite !insert_insert_eq. unfold sampled. cbn. fold d. rewrite E1, E2.
      reflexivity.
Qed.

Lemma EndKeyStageRecord_None name now (w : proc ProgressReporter) :
  ks (self w) !! name = None ->
  EndKeyStageRecord name now w = (Panic NilPointerDereference, w).
Proof.
  intros H. unfold EndKeyStageRecord.
  apply bind_Panic. apply store_None. exact H.
Qed.

Lemma run_cons c rest (w w' : proc ProgressReporter) :
  run (c :: rest) w = (Ok tt, w') ->
  exists w1, exec c w = (Ok tt, w1) /\ run rest w1 = (Ok tt, w').
Proof.
  cbn [run]. unfold bind. destruct (exec c w) as [[[]|p] w1]; intros H.
  - exists w1. split; [reflexivity|exact H].
  - discriminate.
Qed.

Lemma run_app l1 : forall l2 (w w' : proc ProgressReporter),
  run (l1 ++ l2) w = (Ok tt, w') ->
  exists w1, run l1 w = (Ok tt, w1) /\ run l2 w1 = (Ok tt, w').
Proof.
  induction l1 as [|c l1 IH]; intros l2 w w' H.
  - exists w. split; [reflexivity|exact H].
  - rewrite <- app_comm_cons in H. apply run_cons in H.
    destruct H as (w1 & Hc & Hrest). apply IH in Hrest.
    destruct Hrest as (w2 & H1 & H2). exists w2. split; [|exact H2].
    cbn [run]. rewrite (bind_Ok _ _ _ _ _ Hc). exact H1.
Qed.

(** A call that neither starts nor ends [name] leaves its record alone. *)
Lemma exec_other name c (w w' : proc ProgressReporter) :
  ~ starts name c -> ~ ends name c ->
  exec c w = (Ok tt, w') ->
  ks (self w') !! name = ks (self w) !! name.
Proof.
  intros Hs He H. destruct c as [now|now|name' now|name' now]; cbn [exec] in H.
  - inversion H. reflexivity.
  - inversion H. reflexivity.
  - rewrite StartKeyStageRecord_spec in H. inversion H. cbn.
    apply lookup_insert_ne. intros ->. apply Hs. eexists. reflexivity.
  - destruct (ks (self w) !! name') as [k|] eqn:E.
    + rewrite (EndKeyStageRecord_Some _ _ k) in H by assumption. inversion H. cbn.
      apply lookup_insert_ne. intros ->. apply He. eexists. reflexivity.
    + rewrite EndKeyStageRecord_None in H by assumption. discriminate.
Qed.

(** A call that does not end [name] leaves its statistics alone; a missing
    record counts as a fresh one. *)
Lemma exec_keeps_stats name c (w w' : proc ProgressReporter) :
  ~ ends name c ->
  exec c w = (Ok tt, w') ->
  stats (default (fresh name) (ks (self w') !! name))
  = stats (default (fresh name) (ks (self w) !! name)).
Proof.
  intros He H.
  destruct c as [now|now|name' now|name' now].
  - rewrite (exec_other name (CallStartRecord now) w w'
               ltac:(intros [? ?]; discriminate) He H). reflexivity.
  - rewrite (exec_other name (CallEndRecord now) w w'
               ltac:(intros [? ?]; discriminate) He H). reflexivity.
  - destruct (decide (name' = name)) as [->|Hne].
    + cbn [exec] in H. rewrite StartKeyStageRecord_spec in H. inversion H. cbn.
      rewrite lookup_insert_eq. cbn. reflexivity.
    + rewrite (exec_other name (CallStartKeyStageRecord name' now) w w'
                 ltac:(intros [? Heq]; inversion Heq; congruence) He H).
      reflexivity.
  - rewrite (exec_other name (CallEndKeyStageRecord name' now) w w'
               ltac:(intros [? ?]; discriminate) He H). reflexivity.
Qed.

Lemma run_keeps_stats name calls : forall (w w' : proc ProgressReporter),
  Forall (fun c => ~ ends name c) calls ->
  run calls w = (Ok tt, w') ->
  stats (default (fresh name) (ks (self w') !! name))
  = stats (default (fresh name) (ks (self w) !! name)).
Proof.
  induction calls as [|c rest IH]; intros w w' Hall H.
  - inversion H. reflexivity.
  - apply run_cons in H. destruct H as (w1 & Hc & Hrest).
    rewrite (IH w1 w' (Forall_inv_tail Hall) Hrest).
    exact (exec_keeps_stats name c w w1 (Forall_inv Hall) Hc).
Qed.

Lemma run_other name calls : forall (w w' : proc ProgressReporter),
  Forall (fun c => ~ starts name c /\ ~ ends name c) calls ->
  run calls w = (Ok tt, w') ->
  ks (self w') !! name = ks (self w) !! name.
Proof.
  induction calls as [|c rest IH]; intros w w' Hall H.
  - inversion H. reflexivity.
  - apply run_cons in H. destruct H as (w1 & Hc & Hrest).
    rewrite (IH w1 w' (Forall_inv_tail Hall) Hrest).
    destruct (Forall_inv Hall) as [Hs He].
    exact (exec_other name c w w1 Hs He Hc).
Qed.

(** A name that no call has started has no record. *)
Lemma run_never_started name calls : forall (w w' : proc ProgressReporter),
  Forall (fun c => ~ starts name c) calls ->
  ks (self w) !! name = None ->
  run calls w = (Ok tt, w') ->
  ks (self w') !! name = None.
Proof.
  induction calls as [|c rest IH]; intros w w' Hall Hnone H.
  - inversion H. subst. exact Hnone.
  - apply run_cons in H. destruct H as (w1 & Hc & Hrest).
    apply (IH w1 w' (Forall_inv_tail Hall)); [|exact Hrest].
    destruct c as [now|now|name' now|name' now].
    + rewrite (exec_other name (CallStartRecord now) w w1
                 ltac:(intros [? ?]; discriminate)
                 ltac:(intros [? ?]; discriminate) Hc). exact Hnone.
    + rewrite (exec_other name (CallEndRecord now) w w1
                 ltac:(intros [? ?]; discriminate)
                 ltac:(intros [? ?]; discriminate) Hc). exact Hnone.
    + rewrite (exec_other name (CallStartKeyStageRecord name' now) w w1
                 (Forall_inv Hall)
                 ltac:(intros [? ?]; discriminate) Hc). exact Hnone.
    + destruct (decide (name' = name)) as [->|Hne].
      * cbn [exec] in Hc. rewrite EndKeyStageRecord_None in Hc by assumption.
        discriminate.
      * rewrite (exec_other name (CallEndKeyStageRecord name' now) w w1
                   ltac:(intros [? ?]; discriminate)
                   ltac:(intros [? Heq]; inversion Heq; congruence) Hc).
        exact Hnone.
Qed.

(** Two readings of the monotonic clock, the later first, are a
    non-negative duration apart. *)
Lemma Sub_monotonic a b :
  GoInt.in_range a -> GoInt.in_range b -> a <= b ->
  0 <= GoTime.Sub (GoTime.TimeAt b) (GoTime.TimeAt a) <= GoInt.MaxInt.
Proof.
  unfold GoTime.Sub, GoTime.subMono, GoInt.sub, GoTime.maxDuration, GoTime.minDuration.
  intros Ha Hb Hab.
  destruct (Z_le_gt_dec (b - a) GoInt.MaxInt) as [Hfit|Hbig].
  - rewrite wrap_in_range.
    2:{ unfold GoInt.in_range, GoInt.MinInt, GoInt.MaxInt, GoInt.width in *. lia. }
    replace (b - a <? 0) with false by (symmetry; apply Z.ltb_ge; lia).
    replace (a <? b) with (0 <? b - a)
      by (destruct (0 <? b - a) eqn:E1, (a <? b) eqn:E2; lia).
    cbn [andb]. replace (b <? a) with false by (symmetry; apply Z.ltb_ge; lia).
    rewrite andb_false_r. lia.
  - assert (Hw : GoInt.wrap (b - a) < 0).
    { unfold GoInt.wrap, GoInt.in_range, GoInt.MinInt, GoInt.MaxInt, GoInt.width in *.
      replace ((b - a + 2 ^ (64 - 1)) mod 2 ^ 64) with (b - a + 2 ^ (64 - 1) - 2 ^ 64).
      - lia.
      - apply Z.mod_unique with (q := 1); lia. }
    replace (GoInt.wrap (b - a) <? 0) with true by (symmetry; apply Z.ltb_lt; lia).
    replace (a <? b) with true by (symmetry; apply Z.ltb_lt;
      unfold GoInt.MaxInt, GoInt.width in *; lia).
    cbn [andb]. unfold GoInt.MaxInt, GoInt.width. lia.
Qed.

(** A record, once created, stays in the map. *)
Lemma exec_keeps_present name c (w w' : proc ProgressReporter) :
  is_Some (ks (self w) !! name) ->
  exec c w = (Ok tt, w') ->
  is_Some (ks (self w') !! name).
Proof.
  intros Hin H. destruct c as [now|now|name' now|name' now]; cbn [exec] in H.
  - inversion H. exact Hin.
  - inversion H. exact Hin.
  - rewrite StartKeyStageRecord_spec in H. inversion H. cbn.
    rewrite lookup_insert. case_decide; [eexists; reflexivity|exact Hin].
  - destruct (ks (self w) !! name') as [k|] eqn:E.
    + rewrite (EndKeyStageRecord_Some _ _ k) in H by assumption. inversion H. cbn.
      rewrite lookup_insert. case_decide; [eexists; reflexivity|exact Hin].
    + rewrite EndKeyStageRecord_None in H by assumption. discriminate.
Qed.

Lemma run_keeps_present name calls : forall (w w' : proc ProgressReporter),
  is_Some (ks (self w) !! name) ->
  run calls w = (Ok tt, w') ->
  is_Some (ks (self w') !! name).
Proof.
  induction calls as [|c rest IH]; intros w w' Hin H.
  - inversion H. subst. exact Hin.
  - apply run_cons in H. destruct H as (w1 & Hc & Hrest).
    apply (IH w1 w'); [|exact Hrest].
    exact (exec_keeps_present name c w w1 Hin Hc).
Qed.

(** A first sample is the total, the maximum and the minimum. *)
Lemma sampled_fresh d now k :
  0 <= d <= GoInt.MaxInt ->
  stats k = (0, 0, 0, GoInt.MaxInt) ->
  stats (sampled d now k) = (d, 1, d, d).
Proof.
  intros Hd Hk. destruct k as [kn kt kc kmax kmin ks ke].
  unfold stats in Hk. cbn in Hk. inversion Hk. subst.
  unfold stats, sampled. cbn.
  unfold GoInt.add. rewrite !wrap_in_range.
  2:{ unfold GoInt.in_range, GoInt.MinInt, GoInt.MaxInt, GoInt.width. lia. }
  2:{ unfold GoInt.in_range, GoInt.MinInt, GoInt.MaxInt, GoInt.width in *. lia. }
  replace (0 + d) with d by lia.
  destruct (Z.ltb_spec 0 d); destruct (Z.ltb_spec d GoInt.MaxInt);
    repeat f_equal; lia.
Qed.

Lemma range_Print entries : forall (w : proc ProgressReporter),
  range entries (fun k v => Print (report_line k v)) w =
    (Ok tt, Proc (self w) (stdout w ++ map (fun e => report_line e.1 e.2) entries)).
Proof.
  induction entries as [|[k v] rest IH]; intros w.
  - cbn. rewrite app_nil_r. destruct w; reflexivity.
  - cbn [range map]. erewrite bind_Ok by reflexivity. rewrite IH. cbn.
    rewrite <- app_assoc. reflexivity.
Qed.

Lemma Report_spec entries (w : proc ProgressReporter) :
  Report entries w =
    (Ok tt, Proc (self w)
              (stdout w ++ report_header (self w)
                 :: map (fun e => report_line e.1 e.2) entries)).
Proof.
  unfold Report. erewrite bind_Ok by reflexivity. erewrite bind_Ok by reflexivity.
  rewrite range_Print. cbn. rewrite <- app_assoc. reflexivity.
Qed.

(** Whole seconds: the quotient truncated towards zero. *)
Lemma quo_Second d :
  GoInt.in_range d -> GoInt.quo d GoTime.Second = Z.quot d 1000000000.
Proof.
  intros Hd. unfold GoInt.quo. change GoTime.Second with 1000000000.
  apply wrap_in_range.
  unfold GoInt.in_range, GoInt.MinInt, GoInt.MaxInt, GoInt.width in *.
  pose proof (Z.quot_rem' d 1000000000).
  pose proof (Z.rem_bound_abs d 1000000000 ltac:(lia)). lia.
Qed.

End ReporterFacts.

(** ** The claims about [ProgressReporter] *)

Section ReporterClaims.

Import GoRun Reporter.

(** C8. A stage name with exactly one completed pair of
    [StartKeyStageRecord] and [EndKeyStageRecord] (among calls for other
    names, and starts of the same name that no end follows) has
    [count == 1] and [minDuration == maxDuration == totalDuration], the
    time between the two clock readings: the record of a new name starts
    with the largest duration as its minimum. *)
Theorem single_pair_statistics name pre mid post a b (w' : proc ProgressReporter) :
  GoInt.in_range a -> GoInt.in_range b -> a <= b ->
  Forall (fun c => ~ ends name c) pre ->
  Forall (fun c => ~ starts name c /\ ~ ends name c) mid ->
  Forall (fun c => ~ ends name c) post ->
  run (pre ++ CallStartKeyStageRecord name (GoTime.TimeAt a)
           :: mid ++ CallEndKeyStageRecord name (GoTime.TimeAt b) :: post)
    (Proc NewProgressReporter []) = (Ok tt, w') ->
  KeyStage.minDuration (fresh name) = GoTime.maxDuration /\
  exists k,
    ks (self w') !! name = Some k /\
    KeyStage.count k = 1 /\
    KeyStage.minDuration k = KeyStage.maxDuration k /\
    KeyStage.maxDuration k = KeyStage.totalDuration k /\
    KeyStage.totalDuration k = GoTime.Sub (GoTime.TimeAt b) (GoTime.TimeAt a).
Proof.
  intros Ha Hb Hab Hpre Hmid Hpost Hrun. split; [reflexivity|].
  apply run_app in Hrun. destruct Hrun as (w1 & Hrun1 & Hrun).
  apply run_cons in Hrun. destruct Hrun as (w2 & Hstart & Hrun).
  apply run_app in Hrun. destruct Hrun as (w3 & Hrun3 & Hrun).
  apply run_cons in Hrun. destruct Hrun as (w4 & Hend & Hrun).
  pose proof (run_keeps_stats name pre _ _ Hpre Hrun1) as H1. cbn in H1.
  rewrite lookup_empty in H1. cbn [default] in H1.
  cbn [exec] in Hstart. rewrite StartKeyStageRecord_spec in Hstart.
  set (k2 := KeyStage.set_startTime (GoTime.TimeAt a)
               (default (fresh name) (ks (self w1) !! name))) in *.
  assert (H2 : ks (self w2) !! name = Some k2).
  { inversion Hstart. cbn. apply lookup_insert_eq. }
  assert (H3 : ks (self w3) !! name = Some k2).
  { rewrite (run_other name mid w2 w3 Hmid Hrun3). exact H2. }
  cbn [exec] in Hend. rewrite (EndKeyStageRecord_Some _ _ k2) in Hend by assumption.
  assert (Hk2 : KeyStage.startTime k2 = GoTime.TimeAt a) by reflexivity.
  rewrite Hk2 in Hend.
  pose proof (Sub_monotonic a b Ha Hb Hab) as Hd.
  remember (GoTime.Sub (GoTime.TimeAt b) (GoTime.TimeAt a)) as d eqn:Ed.
  assert (H4 : ks (self w4) !! name = Some (sampled d (GoTime.TimeAt b) k2)).
  { inversion Hend. cbn. apply lookup_insert_eq. }
  pose proof (run_keeps_stats name post _ _ Hpost Hrun) as H5.
  rewrite H4 in H5. cbn [default] in H5.
  destruct (run_keeps_present name post w4 w') as [k Hk]; [rewrite H4; eexists; reflexivity|exact Hrun|].
  rewrite Hk in H5. cbn [default] in H5.
  assert (Hs2 : stats k2 = (0, 0, 0, GoInt.MaxInt)) by exact H1.
  unfold id in H5. rewrite (sampled_fresh d (GoTime.TimeAt b) k2 Hd Hs2) in H5.
  unfold stats in H5. inversion H5.
  exists k. repeat split; try assumption; congruence.
Qed.

Lemma single_pair_statistics_witness :
  exists k,
    ks (self (snd (run [CallStartRecord (GoTime.TimeAt 0);
                        CallStartKeyStageRecord "load" (GoTime.TimeAt 10);
                        CallStartKeyStageRecord "parse" (GoTime.TimeAt 20);
                        CallEndKeyStageRecord "load" (GoTime.TimeAt 5000000010);
                        CallEndRecord (GoTime.TimeAt 5000000020)]
                     (Proc NewProgressReporter [])))) !! "load" = Some k /\
    stats k = (5000000000, 1, 5000000000, 5000000000).
Proof.
  destruct (single_pair_statistics "load"
              [CallStartRecord (GoTime.TimeAt 0)]
              [CallStartKeyStageRecord "parse" (GoTime.TimeAt 20)]
              [CallEndRecord (GoTime.TimeAt 5000000020)]
              10 5000000010
              (snd (run [CallStartRecord (GoTime.TimeAt 0);
                         CallStartKeyStageRecord "load" (GoTime.TimeAt 10);
                         CallStartKeyStageRecord "parse" (GoTime.TimeAt 20);
                         CallEndKeyStageRecord "load" (GoTime.TimeAt 5000000010);
                         CallEndRecord (GoTime.TimeAt 5000000020)]
                      (Proc NewProgressReporter []))))
    as (_ & k & Hk & Hc & Hmin & Hmax & Htot).
  - unfold GoInt.in_range, GoInt.MinInt, GoInt.MaxInt, GoInt.width. lia.
  - unfold GoInt.in_range, GoInt.MinInt, GoInt.MaxInt, GoInt.width. lia.
  - lia.
  - repeat constructor; intros [? ?]; discriminate.
  - repeat constructor; intros [? ?]; discriminate.
  - repeat constructor; intros [? ?]; discriminate.
  - vm_compute. reflexivity.
  - exists k. split; [exact Hk|].
    unfold stats. rewrite Hmin, Hmax, Hc, Htot. reflexivity.
Defined.

(** C10. For a stage name that no [StartKeyStageRecord] has been given,
    [EndKeyStageRecord(name)] finds no record under the name and panics on
    the nil pointer at its first statement; the reporter, its statistics
    included, is left as it was. *)
Theorem EndKeyStageRecord_never_started name calls now (w : proc ProgressReporter) :
  Forall (fun c => ~ starts name c) calls ->
  run calls (Proc NewProgressReporter []) = (Ok tt, w) ->
  ks (self w) !! name = None /\
  EndKeyStageRecord name now w = (Panic NilPointerDereference, w).
Proof.
  intros Hcalls Hrun.
  assert (Hnone : ks (self w) !! name = None).
  { apply (run_never_started name calls (Proc NewProgressReporter []) w Hcalls);
      [|exact Hrun].
    cbn. apply lookup_empty. }
  split; [exact Hnone|]. apply EndKeyStageRecord_None. exact Hnone.
Qed.

Lemma EndKeyStageRecord_never_started_witness :
  let w := snd (run [CallStartKeyStageRecord "load" (GoTime.TimeAt 10)]
                  (Proc NewProgressReporter [])) in
  ks (self w) !! "parse" = None /\
  EndKeyStageRecord "parse" (GoTime.TimeAt 20) w = (Panic NilPointerDereference, w).
Proof.
  apply (EndKeyStageRecord_never_started "parse"
           [CallStartKeyStageRecord "load" (GoTime.TimeAt 10)] (GoTime.TimeAt 20)).
  - repeat constructor. intros [? ?]; discriminate.
  - vm_compute. reflexivity.
Defined.

(** C9, as amended. [Report] writes a first line
    ["Total duration: {N} s"], [N] the overall duration in whole seconds
    (truncated), and then, for each recorded stage once, in the order in
    which [range] yields them, the line
    ["\t Key: {name}, Count: {count}, Total duration: {T} s, Max duration:
    {Mx} s, Min duration: {Mn} s"] (a tab and a space before [Key]), the
    durations in whole seconds; with no stage recorded it writes the first
    line only. *)
Theorem Report_format entries (w : proc ProgressReporter) :
  iteration_order (ks (self w)) entries ->
  let seconds d := GoFmt.fmt_d (GoInt.quo d GoTime.Second) in
  let header :=
    "Total duration: " +:+ seconds (totalDuration (self w)) +:+ " s" +:+ newline in
  let line (e : string * keyStage) :=
    tab +:+ " Key: " +:+ e.1
      +:+ ", Count: " +:+ GoFmt.fmt_d (KeyStage.count e.2)
      +:+ ", Total duration: " +:+ seconds (KeyStage.totalDuration e.2)
      +:+ " s, Max duration: " +:+ seconds (KeyStage.maxDuration e.2)
      +:+ " s, Min duration: " +:+ seconds (KeyStage.minDuration e.2)
      +:+ " s" +:+ newline in
  Report entries w = (Ok tt, Proc (self w) (stdout w ++ header :: map line entries)) /\
  length (map line entries) = size (ks (self w)) /\
  (forall name k, ks (self w) !! name = Some k <-> (name, k) ∈ entries) /\
  NoDup entries.*1 /\
  (ks (self w) = ∅ -> Report entries w = (Ok tt, Proc (self w) (stdout w ++ [header]))) /\
  (forall d, GoInt.in_range d -> GoInt.quo d GoTime.Second = Z.quot d 1000000000).
Proof.
  intros Hperm. cbv zeta. unfold iteration_order in Hperm.
  rewrite Report_spec. repeat split.
  - rewrite length_map, Hperm. apply length_map_to_list.
  - intros H. rewrite Hperm. apply elem_of_map_to_list. exact H.
  - intros H. rewrite Hperm in H. apply elem_of_map_to_list in H. exact H.
  - rewrite Hperm. apply NoDup_fst_map_to_list.
  - intros Hempty. rewrite Hempty, map_to_list_empty in Hperm.
    apply Permutation_nil_r in Hperm. subst entries. reflexivity.
  - apply quo_Second.
Qed.

Lemma Report_format_witness :
  stdout (snd (Report [] (Proc (Build GoTime.TimeZero GoTime.TimeZero 2500000000 ∅) [])))
  = ["Total duration: 2 s" +:+ newline].
Proof.
  destruct (Report_format [] (Proc (Build GoTime.TimeZero GoTime.TimeZero 2500000000 ∅) []))
    as (_ & _ & _ & _ & H & _).
  - unfold iteration_order. cbn. rewrite map_to_list_empty. reflexivity.
  - rewrite H by reflexivity. reflexivity.
Defined.

(** C9, as stated, fails on the stage lines: the code writes a space
    between the tab and [Key]. *)
Lemma Report_format_counterexample :
  let k := KeyStage.Build "a" 2000000000 1 2000000000 2000000000
             (GoTime.TimeAt 0) (GoTime.TimeAt 2000000000) in
  let w := Proc (Build GoTime.TimeZero GoTime.TimeZero 0 {[ "a" := k ]}) [] in
  iteration_order (ks (self w)) [("a", k)] /\
  stdout (snd (Report [("a", k)] w)) =
    ["Total duration: 0 s" +:+ newline;
     tab +:+ " Key: a, Count: 1, Total duration: 2 s, Max duration: 2 s, Min duration: 2 s"
         +:+ newline] /\
  stdout (snd (Report [("a", k)] w)) <>
    ["Total duration: 0 s" +:+ newline;
     tab +:+ "Key: a, Count: 1, Total duration: 2 s, Max duration: 2 s, Min duration: 2 s"
         +:+ newline].
Proof.
  cbv zeta. split; [|split].
  - unfold iteration_order. cbn. rewrite map_to_list_singleton. reflexivity.
  - vm_compute. reflexivity.
  - vm_compute. discriminate.
Qed.

End ReporterClaims.

(** ** Goroutines that increment concurrently *)

Section WorkersFacts.

Import GoRun Bar Workers.

Lemma pending_insert gs : forall i g g',
  gs !! i = Some g -> pending (<[i := g']> gs) = pending gs - owed g + owed g'.
Proof.
  induction gs as [|h gs IH]; intros i g g' H.
  - destruct i; discriminate.
  - destruct i as [|i].
    + inversion H. subst. cbn [pending]. change (pending (g' :: gs) = owed g + pending gs - owed g + owed g'). cbn [pending]. lia.
    + change (owed h + pending (<[i := g']> gs) = owed h + pending gs - owed g + owed g').
      rewrite (IH i g g' H). lia.
Qed.

Lemma pending_replicate n g : pending (replicate n g) = Z.of_nat n * owed g.
Proof.
  induction n as [|n IH].
  - reflexivity.
  - cbn [replicate pending]. rewrite IH. lia.
Qed.

Lemma owed_le_pending gs : forall i g,
  (forall j gj, gs !! j = Some gj -> 0 <= owed gj) ->
  gs !! i = Some g ->
  owed g <= pending gs /\ 0 <= pending gs.
Proof.
  induction gs as [|h gs IH]; intros i g Hall H.
  - destruct i; discriminate.
  - assert (Hh : 0 <= owed h) by (apply (Hall O); reflexivity).
    assert (Hrest : 0 <= pending gs).
    { destruct gs as [|h' gs']; [cbn; lia|].
      apply (IH O h'); [|reflexivity].
      intros j gj Hj. apply (Hall (S j)). exact Hj. }
    destruct i as [|i]; cbn in *.
    + inversion H. subst. lia.
    + destruct (IH i g) as [Hle _]; [|exact H|lia].
      intros j gj Hj. apply (Hall (S j)). exact Hj.
Qed.


Lemma stored_inside g : stored g = true -> inside g = true.
Proof. unfold stored, inside. destruct (at_pc g); congruence. Qed.

Lemma invariant_owed t k s j gj :
  invariant t k s -> pool s !! j = Some gj -> 0 <= owed gj.
Proof.
  intros Hinv Hj. unfold owed. destruct (stored gj) eqn:E; [|lia].
  apply stored_inside in E.
  destruct (inv_mutex _ _ _ Hinv j gj Hj E) as [_ Htodo]. lia.
Qed.

(** While goroutine [i] is inside, or the mutex is free, no other goroutine
    is inside. *)
Lemma invariant_others t k s i g j gj :
  invariant t k s ->
  pool s !! i = Some g ->
  inside g = true \/ mu (self (shared s)) = false ->
  j <> i -> pool s !! j = Some gj -> inside gj = false.
Proof.
  intros Hinv Hi Hown Hne Hj. destruct (inside gj) eqn:E; [|reflexivity].
  destruct (inv_mutex _ _ _ Hinv j gj Hj E) as [Hmu _].
  destruct Hown as [Hg|Hfree]; [|congruence].
  exfalso. apply Hne. exact (inv_alone _ _ _ Hinv j i gj g Hj Hi E Hg).
Qed.

(** A step of goroutine [i] that changes the bar and its own state keeps
    the invariant, if it accounts for what it writes. *)
Lemma invariant_update t k s i g w' g' :
  invariant t k s ->
  pool s !! i = Some g ->
  inside g = true \/ mu (self (shared s)) = false ->
  total (self w') = t ->
  current (self w') + owed g' = current (self (shared s)) + owed g ->
  0 <= current (self w') ->
  (inside g' = true -> mu (self w') = true /\ (0 < todo g')%nat) ->
  (mu (self w') = true -> inside g' = true) ->
  (forall c, at_pc g' = Loaded c -> c = current (self w')) ->
  invariant t k (System w' (<[i := g']> (pool s)) None).
Proof.
  intros Hinv Hi Hown Ht Hsum Hcur Hin Hheld Hload.
  assert (Hlen : (i < length (pool s))%nat) by (eapply lookup_lt_Some; exact Hi).
  assert (Hlook : forall j gj, <[i := g']> (pool s) !! j = Some gj ->
                    (j = i /\ gj = g') \/ (j <> i /\ pool s !! j = Some gj)).
  { intros j gj Hj. destruct (decide (j = i)) as [->|Hne].
    - rewrite list_lookup_insert_eq in Hj by exact Hlen. inversion Hj. left. split; reflexivity.
    - rewrite list_lookup_insert_ne in Hj by congruence. right. split; assumption. }
  constructor; cbn [shared pool crash].
  - exact Ht.
  - rewrite (pending_insert _ i g g' Hi). pose proof (inv_sum _ _ _ Hinv). lia.
  - exact Hcur.
  - intros j gj Hj Hgj. destruct (Hlook j gj Hj) as [[-> ->]|[Hne Hold]].
    + apply Hin. exact Hgj.
    + rewrite (invariant_others t k s i g j gj Hinv Hi Hown Hne Hold) in Hgj.
      discriminate.
  - intros j1 j2 g1 g2 H1 H2 Hg1 Hg2.
    destruct (Hlook j1 g1 H1) as [[-> ->]|[Hne1 Hold1]].
    + destruct (Hlook j2 g2 H2) as [[-> ->]|[Hne2 Hold2]]; [reflexivity|].
      rewrite (invariant_others t k s i g j2 g2 Hinv Hi Hown Hne2 Hold2) in Hg2.
      discriminate.
    + rewrite (invariant_others t k s i g j1 g1 Hinv Hi Hown Hne1 Hold1) in Hg1.
      discriminate.
  - intros Hmu. exists i, g'. split; [|apply Hheld; exact Hmu].
    apply list_lookup_insert_eq. exact Hlen.
  - intros j n c Hj. destruct (Hlook j _ Hj) as [[-> Hg']|[Hne Hold]].
    + apply Hload. rewrite <- Hg'. reflexivity.
    + pose proof (invariant_others t k s i g j _ Hinv Hi Hown Hne Hold) as Hout.
      discriminate.
Qed.

Lemma start_invariant description t barLength t0 n m :
  0 <= t ->
  invariant t (Z.of_nat (n * m)) (start (NewProgressBar description t barLength t0) n m).
Proof.
  intros Ht. constructor; cbn.
  - reflexivity.
  - rewrite pending_replicate. unfold owed. cbn. lia.
  - lia.
  - intros i g Hi Hg. apply lookup_replicate in Hi. destruct Hi as [-> _]. discriminate.
  - intros i j gi gj Hi _ Hg. apply lookup_replicate in Hi. destruct Hi as [-> _].
    discriminate.
  - discriminate.
  - intros i n' c Hi. apply lookup_replicate in Hi. destruct Hi as [Hi _]. discriminate.
Qed.

Lemma step_alive i now s s' : step i now s = Some s' -> crash s = None.
Proof.
  unfold step, step_IncrementBy. destruct (crash s); [discriminate|reflexivity].
Qed.

Lemma run_alive schedule s s' :
  run schedule s = Some s' -> crash s' = None -> crash s = None.
Proof.
  destruct schedule as [|[i now] rest]; cbn [run].
  - intros H. inversion H. trivial.
  - destruct (step i now s) as [s1|] eqn:E; [|discriminate].
    intros _ _. exact (step_alive i now s s1 E).
Qed.

Lemma step_invariant t k i now s s' :
  k <= t -> t <= GoInt.MaxInt ->
  invariant t k s ->
  step i now s = Some s' ->
  crash s' = None ->
  invariant t k s'.
Proof.
  intros Hkt Ht Hinv Hstep Halive.
  unfold step, step_IncrementBy in Hstep.
  destruct (crash s); [discriminate|].
  destruct (pool s !! i) as [[at_ [|n]]|] eqn:Hi; try discriminate.
  pose proof (inv_total _ _ _ Hinv) as Htot.
  pose proof (inv_sum _ _ _ Hinv) as Hsum.
  pose proof (inv_current _ _ _ Hinv) as Hcur.
  destruct (owed_le_pending (pool s) i _ (fun j gj => invariant_owed t k s j gj Hinv) Hi) as [Howed Hpend].
  destruct (shared s) as [[tt c bl st d sn m] out] eqn:Hw.
  cbn [self total current mu] in *.
  destruct at_.
  - (* Lock *)
    destruct m eqn:Hm; [discriminate|]. inversion Hstep. subst s'.
    apply (invariant_update t k s i _ _ _ Hinv Hi); rewrite ?Hw; cbn; auto; try lia.
    discriminate.
  - (* the test of [n] and the read of [pb.current] *)
    change (1 <? 0) with false in Hstep. cbv iota in Hstep. inversion Hstep. subst s'.
    destruct (inv_mutex _ _ _ Hinv i _ Hi eq_refl) as [Hmu Htodo].
    rewrite Hw in Hmu. cbn in Hmu.
    apply (invariant_update t k s i _ _ _ Hinv Hi); rewrite ?Hw; cbn; auto; try lia.
    intros c0 Hc0. inversion Hc0. reflexivity.
  - (* the write of [pb.current] *)
    inversion Hstep. subst s'.
    destruct (inv_mutex _ _ _ Hinv i _ Hi eq_refl) as [Hmu Htodo].
    rewrite Hw in Hmu. cbn in Hmu.
    pose proof (inv_loaded _ _ _ Hinv i _ _ Hi) as Hc. rewrite Hw in Hc. cbn in Hc.
    subst c0. unfold owed in Howed. cbn in Howed.
    assert (Hadd : GoInt.add c 1 = c + 1).
    { apply wrap_in_range.
      unfold GoInt.in_range, GoInt.MinInt, GoInt.MaxInt, GoInt.width in *. lia. }
    apply (invariant_update t k s i _ _ _ Hinv Hi); rewrite ?Hw; cbn; auto;
      rewrite ?Hadd; unfold owed; cbn; try lia.
    discriminate.
  - (* the comparison with [pb.total] *)
    replace (tt <? c) with false in Hstep by (symmetry; apply Z.ltb_ge; lia).
    inversion Hstep. subst s'.
    destruct (inv_mutex _ _ _ Hinv i _ Hi eq_refl) as [Hmu Htodo].
    rewrite Hw in Hmu. cbn in Hmu.
    apply (invariant_update t k s i _ _ _ Hinv Hi); rewrite ?Hw; cbn; auto; try lia.
    discriminate.
  - (* the status line *)
    pose proof (refresh_self now (Proc (Build tt c bl st d sn m) out)) as Hself.
    destruct (refresh now (Proc (Build tt c bl st d sn m) out)) as [[[]|p] w'] eqn:E.
    + inversion Hstep. subst s'. cbn [snd self] in Hself.
      destruct (inv_mutex _ _ _ Hinv i _ Hi eq_refl) as [Hmu Htodo].
      rewrite Hw in Hmu. cbn in Hmu.
      apply (invariant_update t k s i _ _ _ Hinv Hi); rewrite ?Hw, ?Hself; cbn; auto;
        try lia.
      discriminate.
    + inversion Hstep. subst s'. discriminate.
  - (* Unlock *)
    inversion Hstep. subst s'.
    destruct (inv_mutex _ _ _ Hinv i _ Hi eq_refl) as [Hmu Htodo].
    apply (invariant_update t k s i _ _ _ Hinv Hi); rewrite ?Hw; cbn; auto;
      unfold owed; cbn; try lia; discriminate.
Qed.

Lemma run_invariant t k schedule : forall s s',
  k <= t -> t <= GoInt.MaxInt ->
  invariant t k s ->
  run schedule s = Some s' ->
  crash s' = None ->
  invariant t k s'.
Proof.
  induction schedule as [|[i now] rest IH]; intros s s' Hkt Ht Hinv Hrun Halive.
  - inversion Hrun. subst. exact Hinv.
  - cbn [run] in Hrun. destruct (step i now s) as [s1|] eqn:E; [|discriminate].
    apply (IH s1 s' Hkt Ht); try assumption.
    apply (step_invariant t k i now s s1 Hkt Ht Hinv E).
    exact (run_alive rest s1 s' Hrun Halive).
Qed.

(** When every goroutine has returned, nothing is owed. *)
Lemma returned_pending t k s :
  invariant t k s -> Forall (fun g => todo g = O) (pool s) -> pending (pool s) = 0.
Proof.
  intros Hinv Hall.
  assert (H : forall gs, Forall (fun g => todo g = O) gs ->
                (forall j gj, gs !! j = Some gj -> 0 <= owed gj) -> pending gs = 0).
  { induction gs as [|h gs IH]; intros Hz Hpos; [reflexivity|].
    cbn [pending]. rewrite IH.
    - pose proof (Hpos O h eq_refl) as Hh. pose proof (Forall_inv Hz) as Hh0.
      unfold owed in *. cbn beta in Hh0. rewrite Hh0 in *. destruct (stored h); lia.
    - exact (Forall_inv_tail Hz).
    - intros j gj Hj. exact (Hpos (S j) gj Hj). }
  apply H; [exact Hall|]. exact (fun j gj => invariant_owed t k s j gj Hinv).
Qed.

(** The six steps of one goroutine, with no other goroutine in between, are
    the method [Increment] of the sequential embedding. *)
Lemma solo_call_is_Increment now t1 t2 t3 t4 t6 (w : proc ProgressBar) k :
  mu (self w) = false ->
  fst (Increment now w) = Ok tt ->
  run [(O, t1); (O, t2); (O, t3); (O, t4); (O, now); (O, t6)]
    (System w [Goroutine Idle (S k)] None)
  = Some (System (snd (Increment now w)) [Goroutine Idle k] None).
Proof.
  intros Hmu. unfold Increment. rewrite IncrementBy_nonnegative by (assumption || lia).
  destruct w as [[t c bl st d sn m] out]. cbn in Hmu. subst m.
  cbv zeta. cbn [self total current stdout].
  unfold run, step, step_IncrementBy.
  cbn [crash pool shared lookup list_lookup insert list_insert self mu on_self set_mu
       stdout total current].
  change (1 <? 0) with false. cbv iota.
  cbn [crash pool shared lookup list_lookup insert list_insert self mu on_self set_mu
       set_current stdout total current barLength startTime description currentStageName].
  destruct (t <? GoInt.add c 1) eqn:E;
    rewrite refresh_spec;
    cbv [on_self set_current set_mu self stdout status_line total current barLength
         startTime description currentStageName mu shown];
    match goal with
    | |- context [formatProgressBar ?a ?b ?c ?d ?e ?f ?g] =>
        destruct (formatProgressBar a b c d e f g)
    end; try discriminate; intros _;
    cbv [crash pool shared lookup list_lookup insert list_insert self mu on_self set_mu
         set_current stdout total current barLength startTime description
         currentStageName shown];
    reflexivity.
Qed.

(** No deadlock: in a state where some call has not returned, some
    goroutine can make a step, whatever the clock shows. *)
Lemma step_enabled t k s :
  invariant t k s -> crash s = None ->
  ~ Forall (fun g => todo g = O) (pool s) ->
  exists i, forall now, is_Some (step i now s).
Proof.
  intros Hinv Halive Hnot.
  destruct (mu (self (shared s))) eqn:Hmu.
  - destruct (inv_held _ _ _ Hinv Hmu) as (i & [at_ n] & Hi & Hin).
    destruct (inv_mutex _ _ _ Hinv i _ Hi Hin) as [_ Htodo]. cbn in Htodo.
    exists i. intros now. unfold step, step_IncrementBy. rewrite Halive, Hi.
    destruct n as [|n]; [lia|].
    destruct at_; try (eexists; reflexivity).
    + discriminate.
    + destruct (refresh now (shared s)) as [[[]|p] w']; cbv beta iota;
        eexists; reflexivity.
  - apply not_Forall_Exists in Hnot; [|intros g; apply _].
    apply Exists_exists in Hnot. destruct Hnot as ([at_ n] & Hin & Hn).
    apply (proj1 (list_elem_of_lookup _ _)) in Hin. destruct Hin as [i Hi].
    exists i. intros now. unfold step, step_IncrementBy. rewrite Halive, Hi.
    cbn in Hn. destruct n as [|n]; [congruence|].
    destruct (inside (Goroutine at_ (S n))) eqn:Hins.
    + destruct (inv_mutex _ _ _ Hinv i _ Hi Hins) as [Hmu' _]. congruence.
    + destruct at_; try discriminate. rewrite Hmu. eexists; reflexivity.
Qed.

End WorkersFacts.

(** ** The claim about concurrent callers *)

Section WorkersClaims.

Import GoRun Bar Workers.

(** C4. [n] goroutines each call [Increment] [m] times on a bar with
    [total >= n*m]; whatever the schedule, when all calls have returned
    [current] is exactly [n*m]. No update is lost because every call holds
    the mutex from its first step to its last: in every state that a
    schedule reaches, a goroutine between [Lock] and [Unlock] holds the
    mutex, and no two goroutines are there at once. *)
Theorem no_lost_updates description total barLength t0 (n m : nat) schedule s' :
  Z.of_nat (n * m) <= total -> total <= GoInt.MaxInt ->
  run schedule (start (NewProgressBar description total barLength t0) n m) = Some s' ->
  crash s' = None ->
  (all_returned s' -> current (self (shared s')) = Z.of_nat (n * m)) /\
  (forall i g, pool s' !! i = Some g -> inside g = true ->
     mu (self (shared s')) = true) /\
  (forall i j gi gj, pool s' !! i = Some gi -> pool s' !! j = Some gj ->
     inside gi = true -> inside gj = true -> i = j).
Proof.
  intros Hnm Ht Hrun Halive.
  assert (Hinv : invariant total (Z.of_nat (n * m)) s').
  { apply (run_invariant total (Z.of_nat (n * m)) schedule
             (start (NewProgressBar description total barLength t0) n m) s' Hnm Ht);
      try assumption.
    apply start_invariant. lia. }
  split; [|split].
  - intros [_ Hall]. pose proof (inv_sum _ _ _ Hinv) as Hsum.
    rewrite (returned_pending _ _ _ Hinv Hall) in Hsum. lia.
  - intros i g Hi Hg. exact (proj1 (inv_mutex _ _ _ Hinv i g Hi Hg)).
  - exact (inv_alone _ _ _ Hinv).
Qed.

Lemma no_lost_updates_witness :
  let call i := replicate 6 (i, GoTime.TimeAt 1000000000) in
  let schedule := call 0%nat ++ call 1%nat ++ call 1%nat ++ call 0%nat in
  exists s',
    run schedule (start (NewProgressBar "T" 4 10 (GoTime.TimeAt 0)) 2 2) = Some s' /\
    all_returned s' /\
    current (self (shared s')) = 4.
Proof.
  cbv zeta.
  destruct (run (replicate 6 (0%nat, GoTime.TimeAt 1000000000)
                   ++ replicate 6 (1%nat, GoTime.TimeAt 1000000000)
                   ++ replicate 6 (1%nat, GoTime.TimeAt 1000000000)
                   ++ replicate 6 (0%nat, GoTime.TimeAt 1000000000))
              (start (NewProgressBar "T" 4 10 (GoTime.TimeAt 0)) 2 2))
    as [s'|] eqn:E; [|vm_compute in E; discriminate].
  exists s'. split; [reflexivity|].
  assert (Hs : all_returned s').
  { vm_compute in E. inversion E. subst s'. split; [reflexivity|]. repeat constructor. }
  split; [exact Hs|].
  refine (proj1 (no_lost_updates "T" 4 10 (GoTime.TimeAt 0) 2 2 _ s' _ _ E (proj1 Hs)) Hs).
  - cbn. lia.
  - unfold GoInt.MaxInt, GoInt.width. lia.
Defined.

End WorkersClaims.

(** ** More on [ProgressReporter]: the statistics of a history of calls *)

Section ReporterHistory.

Import GoRun Reporter History.

Lemma stats_sampled d now k : stats (sampled d now k) = add_sample (stats k) d.
Proof. reflexivity. Qed.

(** The statistics of [name] after a sequence of calls are those before it,
    with the samples of the sequence added one by one; the record holds the
    reading of the latest start. *)
Lemma run_samples name calls : forall (w w' : proc ProgressReporter),
  run calls w = (Ok tt, w') ->
  stats (default (fresh name) (ks (self w') !! name))
  = fold_left add_sample
      (samples name (KeyStage.startTime <$> ks (self w) !! name) calls)
      (stats (default (fresh name) (ks (self w) !! name))).
Proof.
  induction calls as [|c rest IH]; intros w w' Hrun.
  - inversion Hrun. reflexivity.
  - apply run_cons in Hrun. destruct Hrun as (w1 & Hc & Hrest).
    rewrite (IH w1 w' Hrest). clear IH Hrest.
    destruct c as [now|now|n now|n now]; cbn [exec samples] in *.
    + inversion Hc. reflexivity.
    + inversion Hc. reflexivity.
    + rewrite StartKeyStageRecord_spec in Hc. inversion Hc. subst w1. clear Hc.
      cbn [self ks set_ks]. destruct (decide (n = name)) as [->|Hne].
      * rewrite lookup_insert_eq. reflexivity.
      * rewrite lookup_insert_ne by exact Hne. reflexivity.
    + destruct (ks (self w) !! n) as [k|] eqn:E.
      * rewrite (EndKeyStageRecord_Some _ _ k) in Hc by assumption.
        inversion Hc. subst w1. clear Hc. cbn [self ks set_ks].
        destruct (decide (n = name)) as [->|Hne].
        -- rewrite lookup_insert_eq, E. reflexivity.
        -- rewrite lookup_insert_ne by exact Hne. reflexivity.
      * rewrite EndKeyStageRecord_None in Hc by assumption. discriminate.
Qed.

Lemma fold_add_sample ds : forall t c mx mn,
  fold_left add_sample ds (t, c, mx, mn)
  = (fold_left GoInt.add ds t,
     fold_left (fun n _ => GoInt.add n 1) ds c,
     fold_left Z.max ds mx,
     fold_left Z.min ds mn).
Proof.
  induction ds as [|d ds IH]; intros t c mx mn; [reflexivity|].
  cbn [fold_left add_sample]. rewrite IH. repeat f_equal.
  - destruct (Z.ltb_spec mx d); lia.
  - destruct (Z.ltb_spec d mn); lia.
Qed.

Lemma fold_max_bounds ds : forall mx,
  mx <= fold_left Z.max ds mx /\ Forall (fun d => d <= fold_left Z.max ds mx) ds.
Proof.
  induction ds as [|d ds IH]; intros mx; cbn [fold_left].
  - split; [lia|constructor].
  - destruct (IH (Z.max mx d)) as [H1 H2]. split; [lia|].
    constructor; [lia|exact H2].
Qed.

Lemma fold_min_bounds ds : forall mn,
  fold_left Z.min ds mn <= mn /\ Forall (fun d => fold_left Z.min ds mn <= d) ds.
Proof.
  induction ds as [|d ds IH]; intros mn; cbn [fold_left].
  - split; [lia|constructor].
  - destruct (IH (Z.min mn d)) as [H1 H2]. split; [lia|].
    constructor; [lia|exact H2].
Qed.

Lemma fold_count ds : forall c,
  0 <= c -> c + Z.of_nat (length ds) <= GoInt.MaxInt ->
  fold_left (fun n (_ : GoTime.Duration) => GoInt.add n 1) ds c = c + Z.of_nat (length ds).
Proof.
  induction ds as [|d ds IH]; intros c Hc Hfit; cbn [fold_left length] in *; [lia|].
  assert (E : GoInt.add c 1 = c + 1).
  { apply wrap_in_range.
    unfold GoInt.in_range, GoInt.MinInt, GoInt.MaxInt, GoInt.width in *. lia. }
  rewrite E, IH; lia.
Qed.

Lemma fold_total ds : forall t,
  0 <= t -> Forall (fun d => 0 <= d) ds -> t + list_sum_Z ds <= GoInt.MaxInt ->
  fold_left GoInt.add ds t = t + list_sum_Z ds.
Proof.
  induction ds as [|d ds IH]; intros t Ht Hpos Hfit; cbn [fold_left list_sum_Z] in *; [lia|].
  pose proof (Forall_inv Hpos) as Hd. pose proof (Forall_inv_tail Hpos) as Hds.
  cbn beta in Hd.
  assert (Hsum : 0 <= list_sum_Z ds).
  { clear -Hds. induction ds as [|x xs IHx]; cbn; [lia|].
    pose proof (Forall_inv Hds) as Hx. cbn beta in Hx.
    pose proof (IHx (Forall_inv_tail Hds)). lia. }
  assert (E : GoInt.add t d = t + d).
  { apply wrap_in_range.
    unfold GoInt.in_range, GoInt.MinInt, GoInt.MaxInt, GoInt.width in *. lia. }
  rewrite E, IH; try assumption; lia.
Qed.

(** Calls other than [StartRecord] keep the overall start time, and calls
    other than [EndRecord] keep the overall duration. *)
Lemma run_keeps_startTime calls : forall (w w' : proc ProgressReporter),
  Forall (fun c => forall t, c <> CallStartRecord t) calls ->
  run calls w = (Ok tt, w') ->
  startTime (self w') = startTime (self w).
Proof.
  induction calls as [|c rest IH]; intros w w' Hall Hrun.
  - inversion Hrun. reflexivity.
  - apply run_cons in Hrun. destruct Hrun as (w1 & Hc & Hrest).
    rewrite (IH w1 w' (Forall_inv_tail Hall) Hrest). clear IH Hrest.
    pose proof (Forall_inv Hall) as Hne. cbn beta in Hne.
    destruct c as [now|now|n now|n now]; cbn [exec] in Hc.
    + exfalso. exact (Hne now eq_refl).
    + inversion Hc. reflexivity.
    + rewrite StartKeyStageRecord_spec in Hc. inversion Hc. reflexivity.
    + destruct (ks (self w) !! n) as [k|] eqn:E.
      * rewrite (EndKeyStageRecord_Some _ _ k) in Hc by assumption.
        inversion Hc. reflexivity.
      * rewrite EndKeyStageRecord_None in Hc by assumption. discriminate.
Qed.

Lemma run_keeps_totalDuration calls : forall (w w' : proc ProgressReporter),
  Forall (fun c => forall t, c <> CallEndRecord t) calls ->
  run calls w = (Ok tt, w') ->
  totalDuration (self w') = totalDuration (self w).
Proof.
  induction calls as [|c rest IH]; intros w w' Hall Hrun.
  - inversion Hrun. reflexivity.
  - apply run_cons in Hrun. destruct Hrun as (w1 & Hc & Hrest).
    rewrite (IH w1 w' (Forall_inv_tail Hall) Hrest). clear IH Hrest.
    pose proof (Forall_inv Hall) as Hne. cbn beta in Hne.
    destruct c as [now|now|n now|n now]; cbn [exec] in Hc.
    + inversion Hc. reflexivity.
    + exfalso. exact (Hne now eq_refl).
    + rewrite StartKeyStageRecord_spec in Hc. inversion Hc. reflexivity.
    + destruct (ks (self w) !! n) as [k|] eqn:E.
      * rewrite (EndKeyStageRecord_Some _ _ k) in Hc by assumption.
        inversion Hc. reflexivity.
      * rewrite EndKeyStageRecord_None in Hc by assumption. discriminate.
Qed.

End ReporterHistory.

(** ** Further properties of [ProgressReporter] *)

Section ReporterStatistics.

Import GoRun Reporter History.

(** X1. After any sequence of recording calls that returns, the record of a
    stage holds the statistics of all its samples, where every
    [EndKeyStageRecord] samples the time since the latest
    [StartKeyStageRecord] of the name: every sample lies between
    [minDuration] and [maxDuration], which are the smallest and the largest
    sample; [count] is the number of samples and [totalDuration] their sum,
    as long as these fit an [int64]. *)
Theorem stage_statistics name calls (w' : proc ProgressReporter) k :
  run calls (Proc NewProgressReporter []) = (Ok tt, w') ->
  ks (self w') !! name = Some k ->
  let ds := samples name None calls in
  Forall (fun d => KeyStage.minDuration k <= d <= KeyStage.maxDuration k) ds /\
  KeyStage.maxDuration k = fold_left Z.max ds 0 /\
  KeyStage.minDuration k = fold_left Z.min ds GoTime.maxDuration /\
  (Z.of_nat (length ds) <= GoInt.MaxInt -> KeyStage.count k = Z.of_nat (length ds)) /\
  (Forall (fun d => 0 <= d) ds -> list_sum_Z ds <= GoInt.MaxInt ->
   KeyStage.totalDuration k = list_sum_Z ds).
Proof.
  intros Hrun Hk. cbv zeta.
  pose proof (run_samples name calls _ _ Hrun) as H.
  rewrite Hk in H. cbn [self ks NewProgressReporter] in H.
  rewrite lookup_empty in H. cbn [fmap option_fmap option_map default from_option] in H.
  unfold id in H. change (stats (fresh name)) with (0, 0, 0, GoInt.MaxInt) in H.
  rewrite fold_add_sample in H. unfold stats in H.
  injection H as Ht Hc Hmax Hmin.
  destruct (fold_max_bounds (samples name None calls) 0) as [_ Hub].
  destruct (fold_min_bounds (samples name None calls) GoInt.MaxInt) as [_ Hlb].
  split; [|split; [|split; [|split]]].
  - rewrite Forall_forall in *. intros d Hd. rewrite Hmax, Hmin.
    split; [apply Hlb|apply Hub]; exact Hd.
  - exact Hmax.
  - exact Hmin.
  - intros Hfit. rewrite Hc. apply fold_count; lia.
  - intros Hpos Hfit. rewrite Ht. apply fold_total; try assumption; lia.
Qed.

Lemma stage_statistics_witness :
  let calls := [CallStartKeyStageRecord "load" (GoTime.TimeAt 0);
                CallStartKeyStageRecord "load" (GoTime.TimeAt 10);
                CallEndKeyStageRecord "load" (GoTime.TimeAt 40);
                CallStartKeyStageRecord "load" (GoTime.TimeAt 50);
                CallEndKeyStageRecord "load" (GoTime.TimeAt 57);
                CallEndKeyStageRecord "load" (GoTime.TimeAt 60)] in
  exists k,
    ks (self (snd (run calls (Proc NewProgressReporter [])))) !! "load" = Some k /\
    samples "load" None calls = [30; 7; 10] /\
    stats k = (47, 3, 30, 7).
Proof.
  cbv zeta.
  destruct (ks (self (snd (run
              [CallStartKeyStageRecord "load" (GoTime.TimeAt 0);
               CallStartKeyStageRecord "load" (GoTime.TimeAt 10);
               CallEndKeyStageRecord "load" (GoTime.TimeAt 40);
               CallStartKeyStageRecord "load" (GoTime.TimeAt 50);
               CallEndKeyStageRecord "load" (GoTime.TimeAt 57);
               CallEndKeyStageRecord "load" (GoTime.TimeAt 60)]
              (Proc NewProgressReporter [])))) !! "load") as [k|] eqn:Hk;
    [|vm_compute in Hk; discriminate].
  exists k. split; [reflexivity|]. split; [vm_compute; reflexivity|].
  destruct (stage_statistics "load"
              [CallStartKeyStageRecord "load" (GoTime.TimeAt 0);
               CallStartKeyStageRecord "load" (GoTime.TimeAt 10);
               CallEndKeyStageRecord "load" (GoTime.TimeAt 40);
               CallStartKeyStageRecord "load" (GoTime.TimeAt 50);
               CallEndKeyStageRecord "load" (GoTime.TimeAt 57);
               CallEndKeyStageRecord "load" (GoTime.TimeAt 60)]
              (snd (run
                [CallStartKeyStageRecord "load" (GoTime.TimeAt 0);
                 CallStartKeyStageRecord "load" (GoTime.TimeAt 10);
                 CallEndKeyStageRecord "load" (GoTime.TimeAt 40);
                 CallStartKeyStageRecord "load" (GoTime.TimeAt 50);
                 CallEndKeyStageRecord "load" (GoTime.TimeAt 57);
                 CallEndKeyStageRecord "load" (GoTime.TimeAt 60)]
                (Proc NewProgressReporter []))) k)
    as (_ & Hmax & Hmin & Hc & Ht).
  - vm_compute. reflexivity.
  - exact Hk.
  - unfold stats. rewrite Hmax, Hmin, Hc, Ht.
    + vm_compute. reflexivity.
    + vm_compute. repeat constructor; discriminate.
    + vm_compute. discriminate.
    + vm_compute. discriminate.
Defined.

(** X2. [StartKeyStageRecord] always returns: it never panics, writes
    nothing, sets the start time of the name to the clock reading, and
    changes neither the statistics of any stage, nor the record of any other
    name, nor the overall times. *)
Theorem StartKeyStageRecord_returns name now (w : proc ProgressReporter) :
  exists w',
    StartKeyStageRecord name now w = (Ok tt, w') /\
    KeyStage.startTime <$> ks (self w') !! name = Some now /\
    (forall n, stats (default (fresh n) (ks (self w') !! n))
               = stats (default (fresh n) (ks (self w) !! n))) /\
    (forall n, n <> name -> ks (self w') !! n = ks (self w) !! n) /\
    startTime (self w') = startTime (self w) /\
    endTime (self w') = endTime (self w) /\
    totalDuration (self w') = totalDuration (self w) /\
    stdout w' = stdout w.
Proof.
  eexists. split; [apply StartKeyStageRecord_spec|]. cbn [self ks set_ks stdout].
  split; [|split; [|split]].
  - rewrite lookup_insert_eq. reflexivity.
  - intros n. destruct (decide (name = n)) as [->|Hne].
    + rewrite lookup_insert_eq. destruct (ks (self w) !! n); reflexivity.
    + rewrite lookup_insert_ne by exact Hne. reflexivity.
  - intros n Hne. apply lookup_insert_ne. congruence.
  - destruct w as [[a b c m] out]. repeat split; reflexivity.
Qed.

(** X3. The overall duration is the time from the latest [StartRecord] to
    the latest [EndRecord] after it, whatever stages are recorded before,
    in between or afterwards; [Report] shows it in whole seconds. *)
Theorem overall_duration pre mid post a b (w' : proc ProgressReporter) :
  Forall (fun c => (forall t, c <> CallStartRecord t) /\ (forall t, c <> CallEndRecord t)) mid ->
  Forall (fun c => forall t, c <> CallEndRecord t) post ->
  run (pre ++ CallStartRecord a :: mid ++ CallEndRecord b :: post)
    (Proc NewProgressReporter []) = (Ok tt, w') ->
  totalDuration (self w') = GoTime.Sub b a /\
  report_header (self w')
  = "Total duration: " +:+ GoFmt.fmt_d (GoInt.quo (GoTime.Sub b a) GoTime.Second)
      +:+ " s" +:+ newline.
Proof.
  intros Hmid Hpost Hrun.
  apply run_app in Hrun. destruct Hrun as (w1 & _ & Hrun).
  apply run_cons in Hrun. destruct Hrun as (w2 & Hstart & Hrun).
  apply run_app in Hrun. destruct Hrun as (w3 & Hrun3 & Hrun).
  apply run_cons in Hrun. destruct Hrun as (w4 & Hend & Hrun).
  assert (H3 : startTime (self w3) = a).
  { rewrite (run_keeps_startTime mid w2 w3); [|eapply Forall_impl; [exact Hmid|]|exact Hrun3].
    - inversion Hstart. reflexivity.
    - intros c [H _]. exact H. }
  assert (H4 : totalDuration (self w4) = GoTime.Sub b a).
  { inversion Hend. cbn. rewrite H3. reflexivity. }
  assert (H5 : totalDuration (self w') = GoTime.Sub b a).
  { rewrite (run_keeps_totalDuration post w4 w' Hpost Hrun). exact H4. }
  split; [exact H5|]. unfold report_header. rewrite H5. reflexivity.
Qed.

Lemma overall_duration_witness :
  let w' := snd (run [CallStartRecord (GoTime.TimeAt 5);
                      CallStartKeyStageRecord "load" (GoTime.TimeAt 6);
                      CallEndRecord (GoTime.TimeAt 3000000005);
                      CallEndKeyStageRecord "load" (GoTime.TimeAt 3000000009)]
                   (Proc NewProgressReporter [])) in
  totalDuration (self w') = 3000000000 /\
  report_header (self w') = "Total duration: 3 s" +:+ newline.
Proof.
  cbv zeta.
  destruct (overall_duration [] [CallStartKeyStageRecord "load" (GoTime.TimeAt 6)]
              [CallEndKeyStageRecord "load" (GoTime.TimeAt 3000000009)]
              (GoTime.TimeAt 5) (GoTime.TimeAt 3000000005)
              (snd (run [CallStartRecord (GoTime.TimeAt 5);
                         CallStartKeyStageRecord "load" (GoTime.TimeAt 6);
                         CallEndRecord (GoTime.TimeAt 3000000005);
                         CallEndKeyStageRecord "load" (GoTime.TimeAt 3000000009)]
                      (Proc NewProgressReporter [])))) as [Ht Hh].
  - repeat constructor; intros t; discriminate.
  - repeat constructor; intros t; discriminate.
  - vm_compute. reflexivity.
  - split; [rewrite Ht|rewrite Hh]; vm_compute; reflexivity.
Defined.

(** X4. A stage that was started and never ended is reported with count 0,
    total and maximum 0 s and the minimum 9223372036 s: the largest
    duration, which [StartKeyStageRecord] stores as the initial minimum. *)
Theorem unfinished_stage_report name calls (w' : proc ProgressReporter) :
  Exists (starts name) calls ->
  Forall (fun c => ~ ends name c) calls ->
  run calls (Proc NewProgressReporter []) = (Ok tt, w') ->
  exists k,
    ks (self w') !! name = Some k /\
    report_line name k
    = tab +:+ " Key: " +:+ name
        +:+ ", Count: 0, Total duration: 0 s, Max duration: 0 s, Min duration: 9223372036 s"
        +:+ newline.
Proof.
  intros Hstarted Hnoend Hrun.
  pose proof (run_keeps_stats name calls _ _ Hnoend Hrun) as Hstats.
  cbn [self ks NewProgressReporter] in Hstats. rewrite lookup_empty in Hstats.
  assert (Hin : is_Some (ks (self w') !! name)).
  { apply Exists_exists in Hstarted. destruct Hstarted as (c & Hc & [now ->]).
    apply list_elem_of_split in Hc. destruct Hc as (l1 & l2 & ->).
    apply run_app in Hrun. destruct Hrun as (w1 & _ & Hrun).
    apply run_cons in Hrun. destruct Hrun as (w2 & Hs & Hrun).
    apply (run_keeps_present name l2 w2 w'); [|exact Hrun].
    cbn [exec] in Hs. rewrite StartKeyStageRecord_spec in Hs. inversion Hs.
    cbn. rewrite lookup_insert_eq. eexists. reflexivity. }
  destruct Hin as [k Hk]. exists k. split; [exact Hk|].
  rewrite Hk in Hstats. cbn in Hstats. unfold stats in Hstats.
  destruct k as [kn kt kc kmax kmin kst ke]. cbn in Hstats.
  injection Hstats as -> -> -> ->.
  unfold report_line. cbn [KeyStage.count KeyStage.totalDuration KeyStage.maxDuration
                           KeyStage.minDuration].
  change (GoFmt.fmt_d 0) with "0"%string.
  change (GoFmt.fmt_d (GoInt.quo 0 GoTime.Second)) with "0"%string.
  replace (GoFmt.fmt_d (GoInt.quo GoInt.MaxInt GoTime.Second)) with "9223372036"%string
    by (vm_compute; reflexivity).
  apply (f_equal (String.append tab)). apply (f_equal (String.append " Key: ")).
  apply (f_equal (String.append name)). vm_compute. reflexivity.
Qed.

Lemma unfinished_stage_report_witness :
  exists k,
    ks (self (snd (run [CallStartKeyStageRecord "load" (GoTime.TimeAt 7)]
                     (Proc NewProgressReporter [])))) !! "load" = Some k /\
    report_line "load" k
    = tab +:+ " Key: load, Count: 0, Total duration: 0 s, Max duration: 0 s, Min duration: 9223372036 s"
        +:+ newline.
Proof.
  destruct (unfinished_stage_report "load"
              [CallStartKeyStageRecord "load" (GoTime.TimeAt 7)]
              (snd (run [CallStartKeyStageRecord "load" (GoTime.TimeAt 7)]
                      (Proc NewProgressReporter [])))) as (k & Hk & Hline).
  - constructor. eexists. reflexivity.
  - repeat constructor. intros [? ?]; discriminate.
  - vm_compute. reflexivity.
  - exists k. split; [exact Hk|]. rewrite Hline. reflexivity.
Defined.

End ReporterStatistics.

(** ** Further properties of [ProgressBar] *)

Section BarMethodFacts.

Import GoRun Bar.

Lemma SetCurrentStage_spec name now (w : proc ProgressBar) :
  mu (self w) = false ->
  let pb' := set_currentStageName name (self w) in
  SetCurrentStage name now w =
    match status_line pb' now with
    | Ok line => (Ok tt, Proc pb' (shown pb' line (stdout w)))
    | Panic p => (Panic p, Proc pb' (stdout w))
    end.
Proof.
  intros Hmu.
  destruct w as [[t c bl st d sn m] out]. cbn in Hmu. subst m.
  cbv [SetCurrentStage Lock Unlock defer bind get modify lift ret
       self stdout mu set_mu set_currentStageName total current barLength
       startTime description currentStageName].
  rewrite refresh_spec.
  cbv [status_line shown self stdout total current barLength startTime description
       currentStageName mu].
  destruct (formatProgressBar c t d bl st name now); reflexivity.
Qed.

Lemma Finish_spec now (w : proc ProgressBar) :
  mu (self w) = false ->
  let pb' := set_currentStageName done_label (set_current (total (self w)) (self w)) in
  Finish now w =
    match status_line pb' now with
    | Ok line => (Ok tt, Proc pb' (((stdout w ++ [line]) ++ [newline]) ++ [newline]))
    | Panic p => (Panic p, Proc pb' (stdout w))
    end.
Proof.
  intros Hmu.
  destruct w as [[t c bl st d sn m] out]. cbn in Hmu. subst m.
  cbv [Finish Lock Unlock defer bind get modify lift ret Print Println
       self stdout mu set_mu set_current set_currentStageName total current barLength
       startTime description currentStageName].
  rewrite refresh_spec.
  cbv [status_line self stdout total current barLength startTime description
       currentStageName mu].
  rewrite Z.eqb_refl.
  destruct (formatProgressBar t t d bl st done_label now); reflexivity.
Qed.

(** A render panics only in [strings.Repeat]. *)
Lemma formatProgressBar_panics current total description barLength startTime
    currentStageName now p :
  formatProgressBar current total description barLength startTime currentStageName now
    = Panic p ->
  p = NegativeRepeatCount.
Proof.
  unfold formatProgressBar. rewrite Seconds_Ok. cbn [rbind].
  rewrite avgSpeed_Ok. cbn [rbind]. rewrite etaString_Ok. cbn [rbind].
  destruct (Z.eqb_spec total 0) as [->|Hne].
  - unfold Repeat. destruct (barLength <? 0); cbn [rbind]; congruence.
  - unfold GoFloat.fdiv. rewrite (of_int_nonzero total Hne). cbn [rbind].
    unfold Repeat.
    repeat match goal with
           | |- context [if ?c <? 0 then _ else _] => destruct (c <? 0); cbn [rbind]
           end; congruence.
Qed.

Lemma status_tail_fields current total currentStageName elapsedTime avg eta :
  status_tail current total currentStageName elapsedTime avg eta =
    (" (" +:+ GoFmt.fmt_d current +:+ "/" +:+ GoFmt.fmt_d total +:+ ")")
      +:+ " | Stage: " +:+ currentStageName
      +:+ " | Elapsed: "
      +:+ GoTime.Duration_String (GoTime.Round elapsedTime GoTime.Second)
      +:+ " | Avg: " +:+ avg +:+ " | ETA: " +:+ eta.
Proof.
  unfold status_tail. rewrite !append_assoc. reflexivity.
Qed.

(** The status line shows the stage name and ends with the ETA. *)
Lemma formatProgressBar_fields current total description barLength startTime
    currentStageName now line :
  formatProgressBar current total description barLength startTime currentStageName now
    = Ok line ->
  exists front elapsed avg eta,
    line = front +:+ " | Stage: " +:+ currentStageName +:+ " | Elapsed: " +:+ elapsed
             +:+ " | Avg: " +:+ avg +:+ " | ETA: " +:+ eta /\
    (current = total -> eta = "Done"%string).
Proof.
  unfold formatProgressBar. rewrite Seconds_Ok. cbn [rbind].
  rewrite avgSpeed_Ok. cbn [rbind]. rewrite etaString_Ok. cbn [rbind].
  intros Hline.
  match type of Hline with
  | context [status_tail _ _ _ _ _ ?e] => set (eta := e) in *
  end.
  assert (Heta : current = total -> eta = "Done"%string).
  { intros ->. subst eta. rewrite Z.eqb_refl. reflexivity. }
  destruct (total =? 0).
  - destruct (Repeat "-" barLength) as [dashes|]; [|discriminate].
    cbn [rbind] in Hline. inversion Hline. unfold status_tail.
    eexists _, _, _, eta. split; [|exact Heta].
    do 7 apply append_front. apply status_tail_fields.
  - destruct (GoFloat.fdiv (GoFloat.of_int current) (GoFloat.of_int total))
      as [percent|]; [|discriminate].
    cbn [rbind] in Hline.
    destruct (Repeat "=" _) as [filled|]; [|discriminate].
    cbn [rbind] in Hline.
    destruct (Repeat "-" _) as [dashes|]; [|discriminate].
    cbn [rbind] in Hline. inversion Hline. unfold status_tail.
    eexists _, _, _, eta. split; [|exact Heta].
    do 7 apply append_front. apply status_tail_fields.
Qed.

End BarMethodFacts.

Section BarMethods.

Import GoRun Bar.

(** X5. [IncrementBy(n)] with [n >= 0] whose sum [current + n] is an [int]
    leaves [current = min (current + n) total]: it advances by [n] and
    saturates at [total]; every other field of the bar is unchanged and the
    mutex is free again, whether or not the rendering that follows panics. *)
Theorem IncrementBy_saturates n now (w : proc ProgressBar) :
  mu (self w) = false -> 0 <= n ->
  GoInt.in_range (current (self w) + n) ->
  let pb' := self (snd (IncrementBy n now w)) in
  current pb' = Z.min (current (self w) + n) (total (self w)) /\
  total pb' = total (self w) /\
  barLength pb' = barLength (self w) /\
  startTime pb' = startTime (self w) /\
  description pb' = description (self w) /\
  currentStageName pb' = currentStageName (self w) /\
  mu pb' = false.
Proof.
  intros Hmu Hn Hfit pb'. subst pb'.
  rewrite (IncrementBy_self n now w Hmu Hn). cbn zeta.
  unfold GoInt.add. rewrite (wrap_in_range _ Hfit).
  destruct w as [[t c bl st d sn m] out]. cbn in *. subst m.
  repeat split.
  destruct (Z.ltb_spec t (c + n)); lia.
Qed.

Lemma IncrementBy_saturates_witness :
  current (self (snd (IncrementBy 7 (GoTime.TimeAt 0)
                        (Proc (Build 10 5 50 (GoTime.TimeAt 0) "job" "load" false) []))))
    = Z.min (5 + 7) 10.
Proof.
  apply (IncrementBy_saturates 7 (GoTime.TimeAt 0)
           (Proc (Build 10 5 50 (GoTime.TimeAt 0) "job" "load" false) [])).
  - reflexivity.
  - lia.
  - vm_compute. split; discriminate.
Defined.

(** X6. A run of [Increment] calls counts: from a bar with
    [MinInt <= current <= total < MaxInt], after [k] calls (at any clock
    readings) [current] is [min (current + k) total], and [total] has not
    moved. *)
Theorem Increment_counts (nows : list GoTime.Time) : forall (w : proc ProgressBar),
  mu (self w) = false ->
  GoInt.MinInt <= current (self w) <= total (self w) ->
  total (self w) < GoInt.MaxInt ->
  let w' := fold_left (fun w now => snd (Increment now w)) nows w in
  current (self w') = Z.min (current (self w) + Z.of_nat (length nows)) (total (self w)) /\
  total (self w') = total (self w).
Proof.
  induction nows as [|now nows IH]; intros w Hmu Hc Ht.
  - cbn. split; [lia|reflexivity].
  - cbn [fold_left length]. cbn zeta.
    assert (Hfit : GoInt.in_range (current (self w) + 1)).
    { unfold GoInt.in_range. lia. }
    destruct (IncrementBy_saturates 1 now w Hmu ltac:(lia) Hfit)
      as (Hc' & Ht' & _ & _ & _ & _ & Hmu').
    fold (Increment now) in Hc', Ht', Hmu'.
    specialize (IH (snd (Increment now w)) Hmu').
    cbn zeta in IH. rewrite Hc', Ht' in IH.
    destruct IH as [IHc IHt]; [lia|lia|].
    split; [|exact IHt]. rewrite IHc. lia.
Qed.

Lemma Increment_counts_witness :
  let w := Proc (NewProgressBar "job" 3 50 (GoTime.TimeAt 0)) [] in
  let nows := [GoTime.TimeAt 1000000000; GoTime.TimeAt 2000000000; GoTime.TimeAt 3000000000;
               GoTime.TimeAt 4000000000; GoTime.TimeAt 5000000000] in
  let w' := fold_left (fun w now => snd (Increment now w)) nows w in
  current (self w') = Z.min (0 + 5) 3 /\ total (self w') = 3.
Proof.
  apply (Increment_counts
           [GoTime.TimeAt 1000000000; GoTime.TimeAt 2000000000; GoTime.TimeAt 3000000000;
            GoTime.TimeAt 4000000000; GoTime.TimeAt 5000000000]
           (Proc (NewProgressBar "job" 3 50 (GoTime.TimeAt 0)) [])).
  - reflexivity.
  - vm_compute. split; discriminate.
  - reflexivity.
Defined.

(** X7. [Finish] completes the bar: [current] becomes [total], the stage name
    becomes the label of [Finish], the other fields stay and the mutex is
    free again. When the final line renders, the console receives that line
    followed by two line feeds and nothing else, and the line shows the label
    as stage and ends with the ETA field [Done]. *)
Theorem Finish_completes now (w : proc ProgressBar) :
  mu (self w) = false ->
  let pb' := self (snd (Finish now w)) in
  pb' = set_currentStageName done_label (set_current (total (self w)) (self w)) /\
  current pb' = total pb' /\
  mu pb' = false /\
  forall line, status_line pb' now = Ok line ->
    Finish now w = (Ok tt, Proc pb' (stdout w ++ [line; newline; newline])) /\
    exists front elapsed avg,
      line = front +:+ " | Stage: " +:+ done_label +:+ " | Elapsed: " +:+ elapsed
               +:+ " | Avg: " +:+ avg +:+ " | ETA: Done".
Proof.
  intros Hmu pb'.
  assert (Hpb : pb' = set_currentStageName done_label
                        (set_current (total (self w)) (self w))).
  { subst pb'. rewrite (Finish_spec now w Hmu). cbn zeta.
    destruct (status_line _ now); reflexivity. }
  split; [exact Hpb|]. split; [rewrite Hpb; reflexivity|].
  split; [rewrite Hpb; exact Hmu|].
  intros line Hline. split.
  - rewrite (Finish_spec now w Hmu). cbn zeta. rewrite <- Hpb, Hline.
    rewrite <- !app_assoc. reflexivity.
  - rewrite Hpb in Hline. unfold status_line in Hline.
    destruct (formatProgressBar_fields _ _ _ _ _ _ _ _ Hline)
      as (front & elapsed & avg & eta & Heq & Heta).
    cbn [current total set_current set_currentStageName currentStageName] in Heq, Heta.
    rewrite (Heta eq_refl) in Heq. eauto.
Qed.

Lemma Finish_completes_witness :
  let w := Proc (Build 10 5 50 (GoTime.TimeAt 0) "job" "load" false) [] in
  let pb' := self (snd (Finish (GoTime.TimeAt 2000000000) w)) in
  pb' = set_currentStageName done_label (set_current 10 (self w)) /\
  current pb' = total pb' /\
  mu pb' = false /\
  forall line, status_line pb' (GoTime.TimeAt 2000000000) = Ok line ->
    Finish (GoTime.TimeAt 2000000000) w
      = (Ok tt, Proc pb' (stdout w ++ [line; newline; newline])) /\
    exists front elapsed avg,
      line = front +:+ " | Stage: " +:+ done_label +:+ " | Elapsed: " +:+ elapsed
               +:+ " | Avg: " +:+ avg +:+ " | ETA: Done".
Proof.
  apply (Finish_completes (GoTime.TimeAt 2000000000)
           (Proc (Build 10 5 50 (GoTime.TimeAt 0) "job" "load" false) [])).
  reflexivity.
Defined.

(** X8. [SetCurrentStage(name)] replaces the stage name and nothing else, and
    releases the mutex. When the line renders, it is the only thing written
    (followed by a line feed exactly when [current == total]) and it shows
    [name] in its [Stage] field. *)
Theorem SetCurrentStage_shows name now (w : proc ProgressBar) :
  mu (self w) = false ->
  let pb' := self (snd (SetCurrentStage name now w)) in
  pb' = set_currentStageName name (self w) /\
  forall line, status_line pb' now = Ok line ->
    SetCurrentStage name now w =
      (Ok tt, Proc pb' (if current (self w) =? total (self w)
                        then stdout w ++ [line; newline]
                        else stdout w ++ [line])) /\
    exists front back,
      line = front +:+ " | Stage: " +:+ name +:+ " | Elapsed: " +:+ back.
Proof.
  intros Hmu pb'.
  assert (Hpb : pb' = set_currentStageName name (self w)).
  { subst pb'. rewrite (SetCurrentStage_spec name now w Hmu). cbn zeta.
    destruct (status_line _ now); reflexivity. }
  split; [exact Hpb|].
  intros line Hline. split.
  - rewrite (SetCurrentStage_spec name now w Hmu). cbn zeta. rewrite <- Hpb, Hline.
    unfold shown. rewrite Hpb.
    cbn [current total set_currentStageName].
    destruct (current (self w) =? total (self w)); [|reflexivity].
    rewrite <- !app_assoc. reflexivity.
  - rewrite Hpb in Hline. unfold status_line in Hline.
    destruct (formatProgressBar_fields _ _ _ _ _ _ _ _ Hline)
      as (front & elapsed & avg & eta & Heq & _).
    cbn [set_currentStageName currentStageName] in Heq. eauto.
Qed.

Lemma SetCurrentStage_shows_witness :
  let w := Proc (Build 10 5 50 (GoTime.TimeAt 0) "job" "load" false) [] in
  let pb' := self (snd (SetCurrentStage "parse" (GoTime.TimeAt 2000000000) w)) in
  pb' = set_currentStageName "parse" (self w) /\
  forall line, status_line pb' (GoTime.TimeAt 2000000000) = Ok line ->
    SetCurrentStage "parse" (GoTime.TimeAt 2000000000) w =
      (Ok tt, Proc pb' (if current (self w) =? total (self w)
                        then stdout w ++ [line; newline]
                        else stdout w ++ [line])) /\
    exists front back,
      line = front +:+ " | Stage: " +:+ "parse" +:+ " | Elapsed: " +:+ back.
Proof.
  apply (SetCurrentStage_shows "parse" (GoTime.TimeAt 2000000000)
           (Proc (Build 10 5 50 (GoTime.TimeAt 0) "job" "load" false) [])).
  reflexivity.
Defined.



End BarMethods.

(** ** Bounds on what the bar computes in [float64] *)

Section FloatUpper.
Import FloatBounds.








Lemma scaled_le_cancel m n e : - bias <= e -> scaled m e <= scaled n e -> m <= n.
Proof.
  intros He H. unfold scaled, bias in *.
  assert (0 < 2 ^ (e + 1200)) by (apply Z.pow_pos_nonneg; lia).
  nia.
Qed.



















End FloatUpper.

Section RenderSafe.
Import GoRun Bar FloatBounds.


End RenderSafe.

Section FloatExact.
Import FloatBounds.




End FloatExact.

Section RenderEnds.
Import GoRun Bar FloatBounds.





End RenderEnds.

(** ** Programs on bars of moderate size *)

Section ClientFacts.

Import GoRun Bar Client.






End ClientFacts.

Section RenderingResults.

Import GoRun Bar Client.





Example three_of_seven_ex :
  formatProgressBar 3 7 "job" 10 (GoTime.TimeAt 0) "load" (GoTime.TimeAt 2000000000)
  = Ok (cr +:+ "job: [====------]  43% (3/7) | Stage: load | Elapsed: 2s | Avg: 1.5 items/s | ETA: 3s").
Proof. vm_compute. reflexivity. Qed.







End RenderingResults.

(** ** Progress of the goroutines *)

Section ScheduleFacts.

Import GoRun Bar Workers Schedule.











End ScheduleFacts.

Section ScheduleResults.

Import GoRun Bar Workers Schedule.



(** X15. Goroutines that call [Increment] never deadlock: in every state
    that a schedule reaches without a panic, either all calls have
    returned, or some goroutine can make its next step, whatever the clock
    shows. *)
Theorem goroutines_never_deadlock description total barLength t0 (n m : nat)
    schedule s' :
  Z.of_nat (n * m) <= total -> total <= GoInt.MaxInt ->
  run schedule (start (NewProgressBar description total barLength t0) n m) = Some s' ->
  crash s' = None ->
  all_returned s' \/ exists i, forall now, is_Some (step i now s').
Proof.
  intros Hnm Ht Hrun Halive.
  pose proof (start_invariant description total barLength t0 n m ltac:(lia)) as H0.
  pose proof (run_invariant _ _ schedule _ _ Hnm Ht H0 Hrun Halive) as Hinv.
  destruct (decide (Forall (fun g => todo g = O) (pool s'))) as [Hall|Hnot].
  - left. split; assumption.
  - right. exact (step_enabled _ _ s' Hinv Halive Hnot).
Qed.

Lemma goroutines_never_deadlock_witness :
  let schedule := [(0%nat, GoTime.TimeAt 1000000000); (0%nat, GoTime.TimeAt 1000000000)] in
  let s' := System (Proc (Build 4 0 10 (GoTime.TimeAt 0) "T" EmptyString true) [])
              [Goroutine (Loaded 0) 2; Goroutine Idle 2] None in
  all_returned s' \/ exists i, forall now, is_Some (step i now s').
Proof.
  apply (goroutines_never_deadlock "T" 4 10 (GoTime.TimeAt 0) 2 2
           [(0%nat, GoTime.TimeAt 1000000000); (0%nat, GoTime.TimeAt 1000000000)]).
  - vm_compute. discriminate.
  - vm_compute. discriminate.
  - reflexivity.
  - reflexivity.
Defined.



End ScheduleResults.

(** ** The earlier revision of the bar *)

Section EarlierFacts.

Import GoRun Bar.

Lemma Earlier_Display_held now (w : proc ProgressBar) :
  mu (self w) = true -> Earlier.Display now w = (Panic Deadlock, w).
Proof.
  intros Hmu. unfold Earlier.Display, Lock, bind, get, lift.
  cbn [self]. rewrite Hmu. reflexivity.
Qed.

Lemma Earlier_IncrementBy_spec n now (w : proc ProgressBar) :
  mu (self w) = false -> 0 <= n ->
  let c := GoInt.add (current (self w)) n in
  Earlier.IncrementBy n now w =
    (Panic Deadlock,
     Proc (set_mu true
             (set_current (if total (self w) <? c then total (self w) else c) (self w)))
       (stdout w)).
Proof.
  intros Hmu Hn. cbn zeta.
  destruct w as [[t c bl st d sn m] out]. cbn in Hmu. subst m.
  replace (n <? 0) with false
    by (symmetry; apply Z.ltb_ge; exact Hn).
  unfold Earlier.IncrementBy.
  replace (n <? 0) with false
    by (symmetry; apply Z.ltb_ge; exact Hn).
  cbv [Earlier.defer Earlier.Display Lock Unlock bind get modify lift ret
       self stdout mu set_mu set_current total current barLength
       startTime description currentStageName].
  destruct (t <? GoInt.add c n); reflexivity.
Qed.

Lemma Earlier_SetCurrentStage_spec name now (w : proc ProgressBar) :
  mu (self w) = false ->
  Earlier.SetCurrentStage name now w =
    (Panic Deadlock, Proc (set_mu true (set_currentStageName name (self w))) (stdout w)).
Proof.
  intros Hmu.
  destruct w as [[t c bl st d sn m] out]. cbn in Hmu. subst m. reflexivity.
Qed.

Lemma Earlier_Finish_spec now (w : proc ProgressBar) :
  mu (self w) = false ->
  Earlier.Finish now w =
    (Panic Deadlock,
     Proc (set_mu true (set_currentStageName done_label
                          (set_current (total (self w)) (self w))))
       (stdout w)).
Proof.
  intros Hmu.
  destruct w as [[t c bl st d sn m] out]. cbn in Hmu. subst m. reflexivity.
Qed.

Lemma Earlier_Display_spec now (w : proc ProgressBar) :
  mu (self w) = false ->
  Earlier.Display now w =
    match status_line (self w) now with
    | Ok line =>
        (Ok tt, Proc (self w)
                  (if total (self w) =? 0 then stdout w ++ [line]
                   else shown (self w) line (stdout w)))
    | Panic p => (Panic p, w)
    end.
Proof.
  intros Hmu.
  destruct w as [[t c bl st d sn m] out]. cbn in Hmu. subst m.
  pose proof (formatProgressBar_panics c t d bl st sn now) as Hp.
  cbv [Earlier.Display Earlier.defer Lock Unlock bind get modify lift ret Print Println
       status_line shown self stdout mu set_mu total current barLength
       startTime description currentStageName].
  destruct (formatProgressBar c t d bl st sn now) as [line|p].
  - destruct (t =? 0); [reflexivity|]. destruct (c =? t); reflexivity.
  - rewrite (Hp p eq_refl). reflexivity.
Qed.

End EarlierFacts.

Section EarlierResults.

Import GoRun Bar.

(** X17. In the revision before [displayWithoutLock], every method that
    changes the bar deadlocks on its own mutex: [Increment],
    [IncrementBy(n)] with [n >= 0], [SetCurrentStage] and [Finish], called
    with the mutex free, change the fields and then never return from the
    [Lock] of [Display]; nothing is written, the deferred [Unlock] does not
    run, the mutex stays held, and every later [Display] blocks as well. *)
Theorem earlier_methods_deadlock now (w : proc ProgressBar) :
  mu (self w) = false ->
  forall m : M ProgressBar unit,
    In m [Earlier.Increment now; Earlier.Finish now] \/
    (exists n, 0 <= n /\ m = Earlier.IncrementBy n now) \/
    (exists name, m = Earlier.SetCurrentStage name now) ->
    fst (m w) = Panic Deadlock /\
    stdout (snd (m w)) = stdout w /\
    mu (self (snd (m w))) = true /\
    forall later, Earlier.Display later (snd (m w)) = (Panic Deadlock, snd (m w)).
Proof.
  intros Hmu m Hm.
  assert (Hheld : forall w' : proc ProgressBar,
             mu (self w') = true -> stdout w' = stdout w ->
             fst (Panic Deadlock : result unit, w') = Panic Deadlock /\
             stdout (snd (Panic Deadlock : result unit, w')) = stdout w /\
             mu (self (snd (Panic Deadlock : result unit, w'))) = true /\
             forall later,
               Earlier.Display later (snd (Panic Deadlock : result unit, w'))
               = (Panic Deadlock, snd (Panic Deadlock : result unit, w'))).
  { intros w' Hw' Hout. cbn [fst snd]. repeat split; try assumption.
    intros later. apply Earlier_Display_held. exact Hw'. }
  destruct Hm as [Hm | [(n & Hn & ->) | (name & ->)]].
  - cbn [In] in Hm. destruct Hm as [<- | [<- | []]].
    + unfold Earlier.Increment.
      rewrite (Earlier_IncrementBy_spec 1 now w Hmu ltac:(lia)). cbn zeta.
      apply Hheld; reflexivity.
    + rewrite (Earlier_Finish_spec now w Hmu). apply Hheld; reflexivity.
  - rewrite (Earlier_IncrementBy_spec n now w Hmu Hn). cbn zeta.
    apply Hheld; reflexivity.
  - rewrite (Earlier_SetCurrentStage_spec name now w Hmu). apply Hheld; reflexivity.
Qed.

Lemma earlier_methods_deadlock_witness :
  let w := Proc (NewProgressBar "job" 7 10 (GoTime.TimeAt 0)) [] in
  let m := Earlier.Increment (GoTime.TimeAt 1000000000) in
  fst (m w) = Panic Deadlock /\
  stdout (snd (m w)) = stdout w /\
  mu (self (snd (m w))) = true /\
  forall later, Earlier.Display later (snd (m w)) = (Panic Deadlock, snd (m w)).
Proof.
  apply (earlier_methods_deadlock (GoTime.TimeAt 1000000000)
           (Proc (NewProgressBar "job" 7 10 (GoTime.TimeAt 0)) [])).
  - reflexivity.
  - left. left. reflexivity.
Defined.

(** X18. [Display] itself is the same in both revisions, except on a bar
    with [total == 0] and [current == 0]: there the earlier revision
    returns before the test [current == total] and writes no line feed,
    where the present one writes one. *)
Theorem earlier_Display_differs_at_zero now (w : proc ProgressBar) :
  mu (self w) = false ->
  (total (self w) <> 0 \/ current (self w) <> 0 ->
   Earlier.Display now w = Display now w) /\
  (total (self w) = 0 -> current (self w) = 0 ->
   forall line, status_line (self w) now = Ok line ->
     Earlier.Display now w = (Ok tt, Proc (self w) (stdout w ++ [line])) /\
     Display now w = (Ok tt, Proc (self w) ((stdout w ++ [line]) ++ [newline]))).
Proof.
  intros Hmu.
  rewrite (Earlier_Display_spec now w Hmu), (Display_spec now w Hmu).
  unfold shown. split.
  - intros Hne. destruct (status_line (self w) now) as [line|p]; [|reflexivity].
    destruct (Z.eqb_spec (total (self w)) 0) as [H0|H0]; [|reflexivity].
    destruct (Z.eqb_spec (current (self w)) (total (self w))) as [Hc|Hc]; [|reflexivity].
    lia.
  - intros H0 Hc line Hline. rewrite Hline, H0, Hc. split; reflexivity.
Qed.

Lemma earlier_Display_differs_at_zero_witness :
  let w := Proc (NewProgressBar "job" 0 4 (GoTime.TimeAt 0)) [] in
  let now := GoTime.TimeAt 3000000000 in
  (total (self w) <> 0 \/ current (self w) <> 0 ->
   Earlier.Display now w = Display now w) /\
  (total (self w) = 0 -> current (self w) = 0 ->
   forall line, status_line (self w) now = Ok line ->
     Earlier.Display now w = (Ok tt, Proc (self w) (stdout w ++ [line])) /\
     Display now w = (Ok tt, Proc (self w) ((stdout w ++ [line]) ++ [newline]))).
Proof.
  apply (earlier_Display_differs_at_zero (GoTime.TimeAt 3000000000)
           (Proc (NewProgressBar "job" 0 4 (GoTime.TimeAt 0)) [])).
  reflexivity.
Defined.

End EarlierResults.

(** ** Laws of composition *)

Section Composition.

Import GoRun Bar.

Lemma AddTotal_mu n now (w : proc ProgressBar) :
  mu (self w) = false -> mu (self (snd (AddTotal n now w))) = false.
Proof.
  intros Hmu. rewrite (AddTotal_self n now w Hmu). exact Hmu.
Qed.

Lemma IncrementBy_mu n now (w : proc ProgressBar) :
  mu (self w) = false -> 0 <= n -> mu (self (snd (IncrementBy n now w))) = false.
Proof.
  intros Hmu Hn. rewrite (IncrementBy_self n now w Hmu Hn). exact Hmu.
Qed.

(** X19. [AddTotal(n)] followed by [AddTotal(-n)], for [n >= 0] with
    [total + n] an [int], gives back the bar with [0 <= current <= total]
    as it was. The other way round it does not: after [AddTotal(-n)] and
    then [AddTotal(n)], with [0 <= n <= total], the total is back but
    [current] is [min current (total - n)]; the progress beyond
    [total - n] is lost. *)
Theorem AddTotal_round_trip n now1 now2 (w : proc ProgressBar) :
  mu (self w) = false -> 0 <= current (self w) <= total (self w) ->
  0 <= n -> total (self w) + n <= GoInt.MaxInt ->
  self (snd (AddTotal (- n) now2 (snd (AddTotal n now1 w)))) = self w /\
  (n <= total (self w) ->
   self (snd (AddTotal n now2 (snd (AddTotal (- n) now1 w))))
   = set_current (Z.min (current (self w)) (total (self w) - n)) (self w)).
Proof.
  intros Hmu Hc Hn Hfit.
  assert (Hr : forall z, - GoInt.MaxInt <= z <= GoInt.MaxInt -> GoInt.wrap z = z).
  { intros z Hz. apply wrap_in_range.
    unfold GoInt.in_range, GoInt.MinInt, GoInt.MaxInt, GoInt.width in *. lia. }
  split; [|intros Hle].
  - rewrite (AddTotal_self (- n) now2 _ (AddTotal_mu n now1 w Hmu)).
    rewrite (AddTotal_self n now1 w Hmu). cbn zeta.
    destruct w as [[t c bl st d sn m] out].
    cbn [self total current set_total set_current barLength startTime description
         currentStageName mu] in *.
    unfold GoInt.add. rewrite (Hr (t + n)) by lia.
    replace (t + n <? 0) with false by (symmetry; apply Z.ltb_ge; lia).
    replace (t + n <? c) with false by (symmetry; apply Z.ltb_ge; lia).
    rewrite (Hr (t + n + - n)) by lia.
    replace (t + n + - n) with t by lia.
    replace (t <? 0) with false by (symmetry; apply Z.ltb_ge; lia).
    replace (t <? c) with false by (symmetry; apply Z.ltb_ge; lia).
    reflexivity.
  - rewrite (AddTotal_self n now2 _ (AddTotal_mu (- n) now1 w Hmu)).
    rewrite (AddTotal_self (- n) now1 w Hmu). cbn zeta.
    destruct w as [[t c bl st d sn m] out].
    cbn [self total current set_total set_current barLength startTime description
         currentStageName mu] in *.
    unfold GoInt.add. rewrite (Hr (t + - n)) by lia.
    replace (t + - n <? 0) with false by (symmetry; apply Z.ltb_ge; lia).
    rewrite (Hr (t + - n + n)) by lia.
    replace (t + - n + n) with t by lia.
    replace (t <? 0) with false by (symmetry; apply Z.ltb_ge; lia).
    destruct (Z.ltb_spec (t + - n) c) as [Hlt|Hge].
    + replace (t <? t + - n) with false by (symmetry; apply Z.ltb_ge; lia).
      cbv [set_current set_total total current barLength startTime description currentStageName mu]. f_equal. lia.
    + replace (t <? c) with false by (symmetry; apply Z.ltb_ge; lia).
      cbv [set_current set_total total current barLength startTime description currentStageName mu]. f_equal. lia.
Qed.

Lemma AddTotal_round_trip_witness :
  let w := Proc (Build 10 8 50 (GoTime.TimeAt 0) "job" "load" false) [] in
  let now1 := GoTime.TimeAt 1000000000 in
  let now2 := GoTime.TimeAt 2000000000 in
  self (snd (AddTotal (- 5) now2 (snd (AddTotal 5 now1 w)))) = self w /\
  (5 <= total (self w) ->
   self (snd (AddTotal 5 now2 (snd (AddTotal (- 5) now1 w))))
   = set_current (Z.min (current (self w)) (total (self w) - 5)) (self w)).
Proof.
  apply (AddTotal_round_trip 5 (GoTime.TimeAt 1000000000) (GoTime.TimeAt 2000000000)
           (Proc (Build 10 8 50 (GoTime.TimeAt 0) "job" "load" false) [])).
  - reflexivity.
  - cbn. lia.
  - lia.
  - vm_compute. discriminate.
Defined.

(** X20. Two calls [IncrementBy(a)] and [IncrementBy(b)] with [a, b >= 0]
    leave the bar that one call [IncrementBy(a + b)] leaves, as long as
    [current + a + b] is an [int]: the saturation at [total] does not
    depend on how an advance is split. *)
Theorem IncrementBy_additive a b now1 now2 now3 (w : proc ProgressBar) :
  mu (self w) = false -> 0 <= a -> 0 <= b ->
  GoInt.in_range (current (self w)) -> GoInt.in_range (total (self w)) ->
  current (self w) + a + b <= GoInt.MaxInt ->
  self (snd (IncrementBy b now2 (snd (IncrementBy a now1 w))))
  = self (snd (IncrementBy (a + b) now3 w)).
Proof.
  intros Hmu Ha Hb Hc Ht Hfit.
  rewrite (IncrementBy_self b now2 _ (IncrementBy_mu a now1 w Hmu Ha) Hb).
  rewrite (IncrementBy_self a now1 w Hmu Ha).
  rewrite (IncrementBy_self (a + b) now3 w Hmu ltac:(lia)). cbn zeta.
  destruct w as [[t c bl st d sn m] out].
  cbn [self total current set_total set_current barLength startTime description
       currentStageName mu] in *.
  unfold GoInt.in_range in *.
  assert (Hr : forall z, GoInt.MinInt <= z <= GoInt.MaxInt -> GoInt.wrap z = z).
  { intros z Hz. apply wrap_in_range. exact Hz. }
  unfold GoInt.add. rewrite (Hr (c + a)) by lia. rewrite (Hr (c + (a + b))) by lia.
  destruct (Z.ltb_spec t (c + a)) as [H1|H1].
  - rewrite (Hr (t + b)) by lia.
    destruct (Z.ltb_spec t (t + b)), (Z.ltb_spec t (c + (a + b)));
      cbv [set_current set_total total current barLength startTime description currentStageName mu]; f_equal; lia.
  - rewrite (Hr (c + a + b)) by lia.
    destruct (Z.ltb_spec t (c + a + b)), (Z.ltb_spec t (c + (a + b)));
      cbv [set_current set_total total current barLength startTime description currentStageName mu]; f_equal; lia.
Qed.

Lemma IncrementBy_additive_witness :
  let w := Proc (Build 10 5 50 (GoTime.TimeAt 0) "job" "load" false) [] in
  self (snd (IncrementBy 4 (GoTime.TimeAt 2000000000)
               (snd (IncrementBy 3 (GoTime.TimeAt 1000000000) w))))
  = self (snd (IncrementBy (3 + 4) (GoTime.TimeAt 3000000000) w)).
Proof.
  apply (IncrementBy_additive 3 4 (GoTime.TimeAt 1000000000) (GoTime.TimeAt 2000000000)
           (GoTime.TimeAt 3000000000)
           (Proc (Build 10 5 50 (GoTime.TimeAt 0) "job" "load" false) [])).
  - reflexivity.
  - lia.
  - lia.
  - vm_compute. split; discriminate.
  - vm_compute. split; discriminate.
  - vm_compute. discriminate.
Defined.

End Composition.

Section ReporterZeroTime.

Import GoRun Reporter.

(** X21. [EndRecord] without a [StartRecord] before it measures from the
    zero [time.Time]: the overall duration is the largest [Duration], and
    [Report] shows [Total duration: 9223372036 s]. *)
Theorem EndRecord_without_StartRecord pre post b (w' : proc ProgressReporter) :
  Forall (fun c => forall t, c <> CallStartRecord t) pre ->
  Forall (fun c => forall t, c <> CallEndRecord t) post ->
  run (pre ++ CallEndRecord (GoTime.TimeAt b) :: post) (Proc NewProgressReporter [])
    = (Ok tt, w') ->
  totalDuration (self w') = GoTime.maxDuration /\
  report_header (self w') = "Total duration: 9223372036 s" +:+ newline.
Proof.
  intros Hpre Hpost Hrun.
  apply run_app in Hrun. destruct Hrun as (w1 & Hrun1 & Hrun).
  apply run_cons in Hrun. destruct Hrun as (w2 & Hend & Hrun).
  pose proof (run_keeps_startTime pre _ w1 Hpre Hrun1) as H1.
  assert (H2 : totalDuration (self w2) = GoTime.maxDuration).
  { inversion Hend. cbn. rewrite H1. reflexivity. }
  assert (H3 : totalDuration (self w') = GoTime.maxDuration).
  { rewrite (run_keeps_totalDuration post w2 w' Hpost Hrun). exact H2. }
  split; [exact H3|]. unfold report_header. rewrite H3. vm_compute. reflexivity.
Qed.

Lemma EndRecord_without_StartRecord_witness :
  let w' := snd (run [CallStartKeyStageRecord "load" (GoTime.TimeAt 6);
                      CallEndRecord (GoTime.TimeAt 3000000005);
                      CallEndKeyStageRecord "load" (GoTime.TimeAt 3000000009)]
                   (Proc NewProgressReporter [])) in
  totalDuration (self w') = GoTime.maxDuration /\
  report_header (self w') = "Total duration: 9223372036 s" +:+ newline.
Proof.
  apply (EndRecord_without_StartRecord
           [CallStartKeyStageRecord "load" (GoTime.TimeAt 6)]
           [CallEndKeyStageRecord "load" (GoTime.TimeAt 3000000009)]
           3000000005).
  - repeat constructor; intros t; discriminate.
  - repeat constructor; intros t; discriminate.
  - vm_compute. reflexivity.
Defined.

End ReporterZeroTime.
